(** * SimScale harmonic response example: the script and its traces

    The repository is one Python script, [harmonic_response_tutorial.py].
    It reads an API key from the process environment, drives the SimScale
    SDK through project creation, geometry upload and import, simulation
    set-up, meshing and a simulation run, and polls the three long-running
    jobs until they report a terminal status.

    The script is embedded as an interaction tree [main]: every statement
    that touches the outside world (environment variable, standard output,
    [time.sleep], [sys.exit], the file system, the SDK) is an event, and
    the three [while] loops are [ITree.iter] loops.  An executable
    interpreter [exec] runs the tree for a bounded number of steps against
    an environment that answers the events, and returns the outcome
    together with the trace of events and answers.  The properties below
    are statements about these traces, for every environment and every
    number of steps. *)

From Stdlib Require Import ZArith List String Ascii Bool Floats Lia.
From Stdlib Require Import DecimalString.
From ITree Require Import ITree Eq.Shallow.
Import ListNotations ITreeNotations.

Local Open Scope string_scope.
Local Open Scope list_scope.
Local Open Scope itree_scope.
Set Implicit Arguments.

(** ** Python values sent to the SDK *)

(** SDK model objects are built by constructor calls with positional and
    keyword arguments, [Cls(a, ..., k=v, ...)]; the keyword arguments are
    the attributes of the object. *)
#[warnings="-register-all"]
Inductive value : Type :=
| VNone
| VBool (b : bool)
| VInt (n : Z)
| VFloat (x : float)
| VStr (s : string)
| VList (items : list value)
| VDict (items : list (string * value))
| VObj (cls : string) (args : list value) (kwargs : list (string * value)).

(** Attribute stores and dictionaries are association lists; reading takes
    the first binding of a name, assignment replaces it or adds one. *)
Fixpoint assoc_get (name : string) (l : list (string * value)) : option value :=
  match l with
  | [] => None
  | (n, v) :: rest => if String.eqb n name then Some v else assoc_get name rest
  end.

Fixpoint assoc_set (name : string) (v : value) (l : list (string * value))
  : list (string * value) :=
  match l with
  | [] => [(name, v)]
  | (n, x) :: rest =>
      if String.eqb n name then (name, v) :: rest
      else (n, x) :: assoc_set name v rest
  end.

(** An SDK model object as returned by the service. *)
Record object : Type := Obj {
  cls : string;
  attrs : list (string * value)
}.

Definition getattr (o : object) (name : string) : option value :=
  assoc_get name (attrs o).

(** [o.name = v] *)
Definition setattr (o : object) (name : string) (v : value) : object :=
  {| cls := cls o; attrs := assoc_set name v (attrs o) |}.

(** [os.getenv] yields [None] or a string. *)
Definition of_getenv (v : option string) : value :=
  match v with
  | None => VNone
  | Some s => VStr s
  end.

(** Python truth value of the result of [os.getenv]: [None] and the empty
    string are false. *)
Definition truthy (v : option string) : bool :=
  match v with
  | None => false
  | Some s => negb (String.eqb s "")
  end.

(** ** The SDK resources the script reads

    Each record has the attributes the script reads, with the types the
    SDK declares for them. *)

Module Project.
Record t : Type := Make { project_id : string }.
End Project.

Module Storage.
Record t : Type := Make { url : string; storage_id : string }.
End Storage.

Module GeometryImport.
Record t : Type := Make {
  status : string;
  geometry_import_id : string;
  geometry_id : string
}.
End GeometryImport.

Module GeometryMapping.
Record t : Type := Make { name : string }.
End GeometryMapping.

Module GeometryMappings.
Record t : Type := Make { embedded : list GeometryMapping.t }.
End GeometryMappings.

Module Simulation.
Record t : Type := Make { simulation_id : string }.
End Simulation.

Module MeshOperation.
Record t : Type := Make {
  mesh_operation_id : string;
  status : string;
  mesh_id : string
}.
End MeshOperation.

Module SimulationRun.
Record t : Type := Make {
  run_id : string;
  status : string;
  progress : float
}.
End SimulationRun.

(** [Configuration()] with its [api_key] dictionary. *)
Record configuration : Type := { api_key : list (string * value) }.

Definition Configuration : configuration := {| api_key := [] |}.

(** [config.api_key[k] = v] *)
Definition set_api_key (config : configuration) (k : string) (v : value)
  : configuration :=
  {| api_key := assoc_set k v (api_key config) |}.

(** ** Events *)

(** Calls into the file system and the SDK.  The seven [*Api] wrappers
    only keep a reference to the client, so a call names its method and
    arguments. *)
Inductive call : Type :=
| ApiClient (config : configuration)
| CreateProject (body : value)
| CreateStorage
| ReadFile (path : string)
| RestPUT (url : string) (headers : list (string * string)) (body : string)
| ImportGeometry (project_id : string) (request : value)
| GetGeometryImport (project_id geometry_import_id : string)
| GetGeometryMappings (project_id geometry_id : string) (_class : string) (limit : Z)
| CreateSimulation (project_id : string) (spec : value)
| CreateMeshOperation (project_id : string) (operation : value)
| StartMeshOperation (project_id mesh_operation_id simulation_id : string)
| GetMeshOperation (project_id mesh_operation_id : string)
| GetSimulation (project_id simulation_id : string)
| UpdateSimulation (project_id simulation_id : string) (sim : object)
| CreateSimulationRun (project_id simulation_id : string) (run : value)
| StartSimulationRun (project_id simulation_id run_id : string)
| GetSimulationRun (project_id simulation_id run_id : string).

(** What a call returns when it does not raise. *)
Definition result (c : call) : Type :=
  match c with
  | ApiClient _ => unit
  | CreateProject _ => Project.t
  | CreateStorage => Storage.t
  | ReadFile _ => string
  | RestPUT _ _ _ => unit
  | ImportGeometry _ _ => GeometryImport.t
  | GetGeometryImport _ _ => GeometryImport.t
  | GetGeometryMappings _ _ _ _ => GeometryMappings.t
  | CreateSimulation _ _ => Simulation.t
  | CreateMeshOperation _ _ => MeshOperation.t
  | StartMeshOperation _ _ _ => unit
  | GetMeshOperation _ _ => MeshOperation.t
  | GetSimulation _ _ => object
  | UpdateSimulation _ _ _ => unit
  | CreateSimulationRun _ _ _ => SimulationRun.t
  | StartSimulationRun _ _ _ => unit
  | GetSimulationRun _ _ _ => SimulationRun.t
  end.

Variant scriptE : Type -> Type :=
| Getenv (name : string) : scriptE (option string)
| Print (text : string) : scriptE unit
| Sleep (seconds : Z) : scriptE unit
| SysExit (code : Z) : scriptE Empty_set
| Call (c : call) : scriptE (result c).

Definition getenv (name : string) : itree scriptE (option string) :=
  ITree.trigger (Getenv name).

Definition print (text : string) : itree scriptE unit :=
  ITree.trigger (Print text).

Definition sleep (seconds : Z) : itree scriptE unit :=
  ITree.trigger (Sleep seconds).

Definition sys_exit {R : Type} (code : Z) : itree scriptE R :=
  Vis (SysExit code) (fun v : Empty_set => match v with end).

Definition sdk (c : call) : itree scriptE (result c) :=
  ITree.trigger (Call c).

(** ** Formatting *)

(** [status in ("FINISHED", "FAILED")] *)
Definition terminal (status : string) : bool :=
  String.eqb status "FINISHED" || String.eqb status "FAILED".

(** The integer nearest to [m * 2^e], ties to the even one: the rounding
    of the ['f'] format with precision 0. *)
Definition round_half_even (m : positive) (e : Z) : Z :=
  if (0 <=? e)%Z then (Zpos m * 2 ^ e)%Z
  else
    let d := (2 ^ (- e))%Z in
    let q := (Zpos m / d)%Z in
    let r := (Zpos m mod d)%Z in
    if (2 * r <? d)%Z then q
    else if (d <? 2 * r)%Z then (q + 1)%Z
    else if Z.even q then q else (q + 1)%Z.

Definition decimal (n : Z) : string :=
  NilZero.string_of_uint (N.to_uint (Z.to_N n)).

Definition sign_prefix (negative : bool) : string :=
  if negative then "-" else "".

(** [format(y, ".0f")] *)
Definition format_fixed0 (y : float) : string :=
  match Prim2SF y with
  | S754_nan => "nan"
  | S754_infinity s => sign_prefix s ++ "inf"
  | S754_zero s => sign_prefix s ++ "0"
  | S754_finite s m e => sign_prefix s ++ decimal (round_half_even m e)
  end.

(** [format(x, ".0%")]: the value times 100 in fixed notation with no
    decimals, followed by a percent sign. *)
Definition format_percent0 (x : float) : string :=
  format_fixed0 (x * 100)%float ++ "%".

(** [f"Status: {run.status} - Progress: {run.progress:.0%}"] *)
Definition status_line (run : SimulationRun.t) : string :=
  "Status: " ++ SimulationRun.status run ++ " - Progress: "
  ++ format_percent0 (SimulationRun.progress run).

(** ** The script *)

Section Script.

#[local] Set Warnings "-inexact-float".

(** [ConstantFunction(type="CONSTANT", value=v)] *)
Definition ConstantFunction (v : value) : value :=
  VObj "ConstantFunction" [] [("type", VStr "CONSTANT"); ("value", v)].

(** [TopologicalReference(entities=[...])] *)
Definition TopologicalReference (entities : list string) : value :=
  VObj "TopologicalReference" [] [("entities", VList (map VStr entities))].

(** Lines 29-33. *)
Definition project_body : value :=
  VObj "Project" []
    [("name", VStr "Harmonic Response Example");
     ("description", VStr "Harmonic response analysis example");
     ("measurement_system", VStr "SI")].

(** Lines 49-55. *)
Definition geometry_import_request (storage_id : string) : value :=
  VObj "GeometryImportRequest" []
    [("name", VStr "Bracket");
     ("location", VObj "GeometryImportRequestLocation" [VStr storage_id] []);
     ("format", VStr "STEP");
     ("input_unit", VStr "m");
     ("options",
      VObj "GeometryImportRequestOptions" []
        [("facet_split", VBool false); ("sewing", VBool false);
         ("improve", VBool true)])].

(** Lines 90-108. *)
Definition steel (body_name : string) : value :=
  VObj "SolidMaterial" []
    [("name", VStr "Steel");
     ("material_behavior",
      VObj "LinearElasticMaterialBehavior" []
        [("type", VStr "LINEAR_ELASTIC");
         ("directional_dependency",
          VObj "IsotropicDirectionalDependency" []
            [("type", VStr "ISOTROPIC");
             ("youngs_modulus",
              VObj "DimensionalFunctionPressure" []
                [("value", ConstantFunction (VFloat 200e9));
                 ("unit", VStr "Pa")]);
             ("poissons_ratio", ConstantFunction (VFloat 0.3))])]);
     ("density",
      VObj "DimensionalFunctionDensity" []
        [("value", ConstantFunction (VInt 7850)); ("unit", VStr "kg/m³")]);
     ("topological_reference", TopologicalReference [body_name])].

(** Lines 111-135. *)
Definition boundary_conditions : value :=
  VList
    [VObj "FixedSupportBC" []
       [("type", VStr "FIXED_SUPPORT");
        ("name", VStr "Fixed Support");
        ("topological_reference",
         TopologicalReference ["B1_TE42"; "B1_TE70"; "B1_TE98"; "B1_TE378"])];
     VObj "ForceLoadBC" []
       [("type", VStr "FORCE_LOAD");
        ("name", VStr "Force");
        ("force",
         VObj "DimensionalVectorFunctionForce" []
           [("value",
             VObj "ComponentVectorFunction" []
               [("type", VStr "COMPONENT");
                ("x", ConstantFunction (VInt 0));
                ("y", ConstantFunction (VInt 0));
                ("z", ConstantFunction (VInt (-1000)))]);
            ("unit", VStr "N")]);
        ("topological_reference",
         TopologicalReference ["B1_TE150"; "B1_TE153"])]].

(** [MUMPSSolver(type="MUMPS")] *)
Definition MUMPSSolver : value := VObj "MUMPSSolver" [] [("type", VStr "MUMPS")].

(** Lines 136-147. *)
Definition numerics : value :=
  VObj "SolidNumerics" []
    [("harmonic_solution_method", VStr "MODAL_BASED");
     ("modal_base",
      VObj "ModalSolver" []
        [("solver", MUMPSSolver);
         ("solver_model", VDict []);
         ("calculate_frequency",
          VObj "CalculateFrequency" []
            [("prec_shift", VFloat 0.05); ("max_iter_shift", VInt 3);
             ("threshold_frequency", VFloat 0.01)]);
         ("eigen_mode",
          VObj "EigenModeVerification" []
            [("threshold", VFloat 1e-06); ("precision_shift", VFloat 0.05)])]);
     ("harmonic_response", VObj "ModalSolver" [] [("solver", MUMPSSolver)])].

(** [DimensionalFrequency(value=v, unit="Hz")] *)
Definition DimensionalFrequency (v : Z) : value :=
  VObj "DimensionalFrequency" [] [("value", VInt v); ("unit", VStr "Hz")].

(** Lines 148-161. *)
Definition simulation_control : value :=
  VObj "SolidSimulationControl" []
    [("modal_base",
      VObj "ModalBaseControl" []
        [("eigenfrequency_scope",
          VObj "FirstMode" []
            [("type", VStr "FIRSTMODE"); ("number_of_modes", VInt 10)])]);
     ("harmonic_response",
      VObj "HarmonicResponseControl" []
        [("excitation_frequencies",
          VObj "FrequencyList" []
            [("type", VStr "LIST_V20");
             ("start_frequency", DimensionalFrequency 10);
             ("end_frequency", DimensionalFrequency 1000)])]);
     ("processors", VObj "ComputingCore" [] [("num_of_processors", VInt (-1))]);
     ("max_run_time",
      VObj "DimensionalTime" [] [("value", VFloat 18000.0); ("unit", VStr "s")])].

(** Lines 81-163. *)
Definition harmonic_analysis (body_name : string) : value :=
  VObj "HarmonicAnalysis" []
    [("element_technology",
      VObj "SolidElementTechnology" []
        [("element_technology3_d",
          VObj "ElementTechnology" []
            [("definition_method",
              VObj "AutomaticElementDefinitionMethod" []
                [("type", VStr "AUTOMATIC")])])]);
     ("global_physics",
      VObj "SolidGlobalPhysics" [] [("enable_global_damping", VBool false)]);
     ("model", VObj "SolidModel" [] []);
     ("materials", VList [steel body_name]);
     ("initial_conditions", VObj "SolidInitialConditions" [] []);
     ("boundary_conditions", boundary_conditions);
     ("numerics", numerics);
     ("simulation_control", simulation_control);
     ("result_control", VObj "SolidResultControl" [] [])].

(** Lines 78-164. *)
Definition simulation_spec (geometry_id body_name : string) : value :=
  VObj "SimulationSpec" []
    [("name", VStr "Harmonic Response");
     ("geometry_id", VStr geometry_id);
     ("model", harmonic_analysis body_name)].

(** Lines 172-179. *)
Definition mesh_operation (geometry_id : string) : value :=
  VObj "MeshOperation" []
    [("name", VStr "Mesh");
     ("geometry_id", VStr geometry_id);
     ("model",
      VObj "SimmetrixMeshingSolid" []
        [("type", VStr "SIMMETRIX_MESHING_SOLID");
         ("sizing",
          VObj "AutomaticMeshSizingSimmetrix" []
            [("type", VStr "AUTOMATIC_V9"); ("fineness", VInt 5)])])].

(** [SimulationRun(name="Run 1")] *)
Definition run_body : value := VObj "SimulationRun" [] [("name", VStr "Run 1")].

(** Line 72: [bodies[0].name if bodies else "region1"] *)
Definition body_name_of (bodies : list GeometryMapping.t) : string :=
  match bodies with
  | [] => "region1"
  | b :: _ => GeometryMapping.name b
  end.

(** Lines 60-64:
    [while geometry_import.status not in ("FINISHED", "FAILED"):
       time.sleep(5); geometry_import = get_geometry_import(...)] *)
Definition wait_for_import (project_id : string) (geometry_import : GeometryImport.t)
  : itree scriptE GeometryImport.t :=
  ITree.iter
    (fun geometry_import =>
       if negb (terminal (GeometryImport.status geometry_import)) then
         sleep 5;;
         geometry_import <-
           sdk (GetGeometryImport project_id
                  (GeometryImport.geometry_import_id geometry_import));;
         Ret (inl geometry_import)
       else Ret (inr geometry_import))
    geometry_import.

(** Lines 189-193:
    [while True: mesh_op = get_mesh_operation(...);
       if mesh_op.status in ("FINISHED", "FAILED"): break; time.sleep(30)] *)
Definition wait_for_mesh (project_id : string) (mesh_op : MeshOperation.t)
  : itree scriptE MeshOperation.t :=
  ITree.iter
    (fun mesh_op =>
       mesh_op <-
         sdk (GetMeshOperation project_id (MeshOperation.mesh_operation_id mesh_op));;
       if terminal (MeshOperation.status mesh_op) then Ret (inr mesh_op)
       else sleep 30;; Ret (inl mesh_op))
    mesh_op.

(** Lines 208-213:
    [while True: run = get_simulation_run(...); print(f"Status: ...");
       if run.status in ("FINISHED", "FAILED"): break; time.sleep(60)] *)
Definition wait_for_run (project_id simulation_id : string) (run : SimulationRun.t)
  : itree scriptE SimulationRun.t :=
  ITree.iter
    (fun run =>
       run <-
         sdk (GetSimulationRun project_id simulation_id (SimulationRun.run_id run));;
       print (status_line run);;
       if terminal (SimulationRun.status run) then Ret (inr run)
       else sleep 60;; Ret (inl run))
    run.

Definition error_message : string :=
  "ERROR: Please set SIMSCALE_API_KEY environment variable".

(** [f"\n✓ Simulation complete!"]: a line feed, then the text. *)
Definition complete_message : string :=
  String (ascii_of_nat 10) "✓ Simulation complete!".

(** [f"View results at: https://www.simscale.com/workbench/project/{project_id}"] *)
Definition results_message (project_id : string) : string :=
  "View results at: https://www.simscale.com/workbench/project/" ++ project_id.

(** Lines 15-216: the script once the API key has been checked. *)
Definition pipeline (api_key : option string) : itree scriptE unit :=
  let config := Configuration in
  let config := set_api_key config "X-API-KEY" (of_getenv api_key) in
  sdk (ApiClient config);;
  print "Creating project...";;
  project <- sdk (CreateProject project_body);;
  let project_id := Project.project_id project in
  print "Uploading geometry...";;
  storage <- sdk CreateStorage;;
  body <- sdk (ReadFile "./fixtures/bracket-1.step");;
  sdk (RestPUT (Storage.url storage)
         [("Content-Type", "application/octet-stream")] body);;
  geometry_import <-
    sdk (ImportGeometry project_id
           (geometry_import_request (Storage.storage_id storage)));;
  print "Importing geometry...";;
  geometry_import <- wait_for_import project_id geometry_import;;
  let geometry_id := GeometryImport.geometry_id geometry_import in
  bodies <- sdk (GetGeometryMappings project_id geometry_id "region" 1);;
  let body_name := body_name_of (GeometryMappings.embedded bodies) in
  print "Setting up simulation...";;
  simulation <-
    sdk (CreateSimulation project_id (simulation_spec geometry_id body_name));;
  let simulation_id := Simulation.simulation_id simulation in
  print "Creating mesh...";;
  mesh_op <- sdk (CreateMeshOperation project_id (mesh_operation geometry_id));;
  sdk (StartMeshOperation project_id
         (MeshOperation.mesh_operation_id mesh_op) simulation_id);;
  print "Meshing...";;
  mesh_op <- wait_for_mesh project_id mesh_op;;
  sim <- sdk (GetSimulation project_id simulation_id);;
  let sim := setattr sim "mesh_id" (VStr (MeshOperation.mesh_id mesh_op)) in
  sdk (UpdateSimulation project_id simulation_id sim);;
  print "Running simulation...";;
  run <- sdk (CreateSimulationRun project_id simulation_id run_body);;
  sdk (StartSimulationRun project_id simulation_id (SimulationRun.run_id run));;
  run <- wait_for_run project_id simulation_id run;;
  print complete_message;;
  print (results_message project_id).

(** Lines 10-13, then the rest of the script. *)
Definition main : itree scriptE unit :=
  api_key <- getenv "SIMSCALE_API_KEY";;
  (if negb (truthy api_key) then
     print error_message;;
     sys_exit 1
   else Ret tt);;
  pipeline api_key.

End Script.

(** ** Running the script against an environment *)

(** The answer of the outside world to a call: a result, or an exception
    that the script does not catch. *)
Variant reply (T : Type) : Type :=
| Returns (x : T)
| Raises (exn : string).

Arguments Returns {T} x.
Arguments Raises {T} exn.

(** The outside world: the process environment, and a service whose state
    evolves with the calls it receives and with the time the script spends
    sleeping. *)
Record environment : Type := {
  state : Type;
  init : state;
  environ : string -> option string;
  elapse : Z -> state -> state;
  respond : forall c : call, state -> reply (result c) * state
}.

(** What the script did, in order, with the answers it got. *)
Inductive entry : Type :=
| EGetenv (name : string) (v : option string)
| EPrint (text : string)
| ESleep (seconds : Z)
| EExit (code : Z)
| ECall (c : call) (a : reply (result c)).

(** How a run stands after a number of steps: the script ran to its end,
    left through [sys.exit], died of an uncaught exception, or is still
    running. *)
Variant outcome : Type :=
| Finished
| Exited (code : Z)
| Uncaught (exn : string)
| Running.

Definition log (e : entry) (r : outcome * list entry) : outcome * list entry :=
  (fst r, e :: snd r).

Section Exec.

Variable env : environment.

(** One event: the entry it leaves in the trace and, unless it ends the
    run, the answer the script receives and the next state of the
    service. *)
Definition perform {T : Type} (e : scriptE T) (s : state env)
  : entry * option (T * state env) :=
  match e in scriptE T return entry * option (T * state env) with
  | Getenv name =>
      let v := environ env name in (EGetenv name v, Some (v, s))
  | Print text => (EPrint text, Some (tt, s))
  | Sleep seconds => (ESleep seconds, Some (tt, elapse env seconds s))
  | SysExit code => (EExit code, None)
  | Call c =>
      match respond env c s with
      | (Returns x, s') => (ECall c (Returns x), Some (x, s'))
      | (Raises exn, _) => (ECall c (Raises exn), None)
      end
  end.

(** The outcome of a run that ended with entry [e]. *)
Definition ended_by (e : entry) : outcome :=
  match e with
  | EExit code => Exited code
  | ECall _ (Raises exn) => Uncaught exn
  | _ => Running
  end.

(** [exec fuel t s] runs [t] from service state [s] for at most [fuel]
    steps; an event or a silent step of the tree takes one step. *)
Fixpoint exec {R : Type} (fuel : nat) (t : itree scriptE R) (s : state env)
  : outcome * list entry :=
  match fuel with
  | O => (Running, [])
  | S fuel =>
      match observe t with
      | RetF _ => (Finished, [])
      | TauF t' => exec fuel t' s
      | VisF e k =>
          match perform e s with
          | (a, Some (x, s')) => log a (exec fuel (k x) s')
          | (a, None) => (ended_by a, [a])
          end
      end
  end.

(** A run of the whole script. *)
Definition run_script (fuel : nat) : outcome * list entry :=
  exec fuel main (init env).

Definition trace (fuel : nat) : list entry := snd (run_script fuel).

Definition outcome_of (fuel : nat) : outcome := fst (run_script fuel).

End Exec.

(** ** The script as a transition system

    A second reading of the same source, statement by statement: a program
    point is a line of the script about to be executed together with the
    variables that are live there.  [at_point] gives the event issued at a
    point and the point reached with each answer.  Lemma [main_walks]
    shows that [main] and this transition system produce the same runs;
    the transition system is then used to reason about traces. *)
Inductive point : Type :=
| L10
| L11 (api_key : option string)
| L13
| L28
| L29
| L37 (project_id : string)
| L38 (project_id : string)
| L39 (project_id : string) (storage : Storage.t)
| L40 (project_id : string) (storage : Storage.t) (body : string)
| L47 (project_id : string) (storage : Storage.t)
| L59 (project_id : string) (geometry_import : GeometryImport.t)
| L60 (project_id : string) (geometry_import : GeometryImport.t)
| L62 (project_id : string) (geometry_import : GeometryImport.t)
| L75 (project_id geometry_id : string) (bodies : GeometryMappings.t)
| L76 (project_id geometry_id body_name : string)
| L169 (project_id geometry_id simulation_id : string)
| L170 (project_id geometry_id simulation_id : string)
| L183 (project_id simulation_id : string) (mesh_op : MeshOperation.t)
| L188 (project_id simulation_id : string) (mesh_op : MeshOperation.t)
| L190 (project_id simulation_id : string) (mesh_op : MeshOperation.t)
| L191 (project_id simulation_id : string) (mesh_op : MeshOperation.t)
| L197 (project_id simulation_id : string) (mesh_op : MeshOperation.t) (sim : object)
| L201 (project_id simulation_id : string)
| L202 (project_id simulation_id : string)
| L205 (project_id simulation_id : string) (run : SimulationRun.t)
| L209 (project_id simulation_id : string) (run : SimulationRun.t)
| L210 (project_id simulation_id : string) (run : SimulationRun.t)
| L211 (project_id simulation_id : string) (run : SimulationRun.t)
| L216 (project_id : string)
| LEnd.

Inductive move : Type :=
| Halt
| Step (T : Type) (e : scriptE T) (next : T -> point).

Definition at_point (pt : point) : move :=
  match pt with
  | L10 => Step (Getenv "SIMSCALE_API_KEY") L11
  | L11 api_key =>
      if negb (truthy api_key) then Step (Print error_message) (fun _ => L13)
      else
        Step (Call (ApiClient (set_api_key Configuration "X-API-KEY" (of_getenv api_key))))
          (fun _ => L28)
  | L13 => Step (SysExit 1) (fun v => match v with end)
  | L28 => Step (Print "Creating project...") (fun _ => L29)
  | L29 => Step (Call (CreateProject project_body))
             (fun project => L37 (Project.project_id project))
  | L37 project_id => Step (Print "Uploading geometry...") (fun _ => L38 project_id)
  | L38 project_id => Step (Call CreateStorage) (fun storage => L39 project_id storage)
  | L39 project_id storage =>
      Step (Call (ReadFile "./fixtures/bracket-1.step"))
        (fun body => L40 project_id storage body)
  | L40 project_id storage body =>
      Step (Call (RestPUT (Storage.url storage)
                    [("Content-Type", "application/octet-stream")] body))
        (fun _ => L47 project_id storage)
  | L47 project_id storage =>
      Step (Call (ImportGeometry project_id
                    (geometry_import_request (Storage.storage_id storage))))
        (fun geometry_import => L59 project_id geometry_import)
  | L59 project_id geometry_import =>
      Step (Print "Importing geometry...") (fun _ => L60 project_id geometry_import)
  | L60 project_id geometry_import =>
      if negb (terminal (GeometryImport.status geometry_import)) then
        Step (Sleep 5) (fun _ => L62 project_id geometry_import)
      else
        let geometry_id := GeometryImport.geometry_id geometry_import in
        Step (Call (GetGeometryMappings project_id geometry_id "region" 1))
          (fun bodies => L75 project_id geometry_id bodies)
  | L62 project_id geometry_import =>
      Step (Call (GetGeometryImport project_id
                    (GeometryImport.geometry_import_id geometry_import)))
        (fun geometry_import => L60 project_id geometry_import)
  | L75 project_id geometry_id bodies =>
      Step (Print "Setting up simulation...")
        (fun _ => L76 project_id geometry_id
                    (body_name_of (GeometryMappings.embedded bodies)))
  | L76 project_id geometry_id body_name =>
      Step (Call (CreateSimulation project_id (simulation_spec geometry_id body_name)))
        (fun simulation =>
           L169 project_id geometry_id (Simulation.simulation_id simulation))
  | L169 project_id geometry_id simulation_id =>
      Step (Print "Creating mesh...")
        (fun _ => L170 project_id geometry_id simulation_id)
  | L170 project_id geometry_id simulation_id =>
      Step (Call (CreateMeshOperation project_id (mesh_operation geometry_id)))
        (fun mesh_op => L183 project_id simulation_id mesh_op)
  | L183 project_id simulation_id mesh_op =>
      Step (Call (StartMeshOperation project_id
                    (MeshOperation.mesh_operation_id mesh_op) simulation_id))
        (fun _ => L188 project_id simulation_id mesh_op)
  | L188 project_id simulation_id mesh_op =>
      Step (Print "Meshing...") (fun _ => L190 project_id simulation_id mesh_op)
  | L190 project_id simulation_id mesh_op =>
      Step (Call (GetMeshOperation project_id
                    (MeshOperation.mesh_operation_id mesh_op)))
        (fun mesh_op => L191 project_id simulation_id mesh_op)
  | L191 project_id simulation_id mesh_op =>
      if terminal (MeshOperation.status mesh_op) then
        Step (Call (GetSimulation project_id simulation_id))
          (fun sim => L197 project_id simulation_id mesh_op sim)
      else Step (Sleep 30) (fun _ => L190 project_id simulation_id mesh_op)
  | L197 project_id simulation_id mesh_op sim =>
      Step (Call (UpdateSimulation project_id simulation_id
                    (setattr sim "mesh_id" (VStr (MeshOperation.mesh_id mesh_op)))))
        (fun _ => L201 project_id simulation_id)
  | L201 project_id simulation_id =>
      Step (Print "Running simulation...") (fun _ => L202 project_id simulation_id)
  | L202 project_id simulation_id =>
      Step (Call (CreateSimulationRun project_id simulation_id run_body))
        (fun run => L205 project_id simulation_id run)
  | L205 project_id simulation_id run =>
      Step (Call (StartSimulationRun project_id simulation_id
                    (SimulationRun.run_id run)))
        (fun _ => L209 project_id simulation_id run)
  | L209 project_id simulation_id run =>
      Step (Call (GetSimulationRun project_id simulation_id
                    (SimulationRun.run_id run)))
        (fun run => L210 project_id simulation_id run)
  | L210 project_id simulation_id run =>
      Step (Print (status_line run)) (fun _ => L211 project_id simulation_id run)
  | L211 project_id simulation_id run =>
      if terminal (SimulationRun.status run) then
        Step (Print complete_message) (fun _ => L216 project_id)
      else Step (Sleep 60) (fun _ => L209 project_id simulation_id run)
  | L216 project_id => Step (Print (results_message project_id)) (fun _ => LEnd)
  | LEnd => Halt
  end.

Section Walk.

Variable env : environment.

(** [walk n pt s]: the first [n] events from point [pt]. *)
Fixpoint walk (n : nat) (pt : point) (s : state env) : outcome * list entry :=
  match n with
  | O => (Running, [])
  | S n =>
      match at_point pt with
      | Halt => (Finished, [])
      | Step e next =>
          match perform env e s with
          | (a, Some (x, s')) => log a (walk n (next x) s')
          | (a, None) => (ended_by a, [a])
          end
      end
  end.

(** One move from [pt]: the entry it leaves and, unless the run ends with
    it, the point and service state that follow. *)
Definition advance (pt : point) (s : state env)
  : option (entry * option (point * state env)) :=
  match at_point pt with
  | Halt => None
  | Step e next =>
      Some (match perform env e s with
            | (a, Some (x, s')) => (a, Some (next x, s'))
            | (a, None) => (a, None)
            end)
  end.

(** [reaches pt s tr pt' s']: from [pt] in state [s] the moves [tr] lead
    to [pt'] in state [s']. *)
Inductive reaches : point -> state env -> list entry -> point -> state env -> Prop :=
| reaches_here pt s : reaches pt s [] pt s
| reaches_move pt s a pt1 s1 tr pt2 s2 :
    advance pt s = Some (a, Some (pt1, s1)) ->
    reaches pt1 s1 tr pt2 s2 ->
    reaches pt s (a :: tr) pt2 s2.

(** Up to [N] steps of a tree are matched by the transition system in
    at least half as many moves. *)
Definition agree_upto (R : Type) (N : nat) (t : itree scriptE R) (pt : point)
  : Prop :=
  forall fuel (s : state env), (fuel <= N)%nat ->
    exists n, (n <= fuel)%nat /\ (fuel <= 2 * n)%nat /\
              exec env fuel t s = walk n pt s.

End Walk.

(** The part of the script a point belongs to: before the import loop (0),
    in it (1), between import and meshing (2), in the mesh loop (3),
    between meshing and the run (4), in the run loop (5), after it (6).
    A loop test that has seen a terminal status belongs to what follows
    the loop. *)
Definition stage (pt : point) : nat :=
  match pt with
  | L10 | L11 _ | L13 | L28 | L29 | L37 _ | L38 _ | L39 _ _ | L40 _ _ _
  | L47 _ _ | L59 _ _ => 0
  | L60 _ gi => if terminal (GeometryImport.status gi) then 2 else 1
  | L62 _ _ => 1
  | L75 _ _ _ | L76 _ _ _ | L169 _ _ _ | L170 _ _ _ | L183 _ _ _ | L188 _ _ _ => 2
  | L190 _ _ _ => 3
  | L191 _ _ mo => if terminal (MeshOperation.status mo) then 4 else 3
  | L197 _ _ _ _ | L201 _ _ | L202 _ _ | L205 _ _ _ => 4
  | L209 _ _ _ | L210 _ _ _ => 5
  | L211 _ _ run => if terminal (SimulationRun.status run) then 6 else 5
  | L216 _ | LEnd => 6
  end.

(** The source line of a point. *)
Definition line (pt : point) : nat :=
  match pt with
  | L10 => 10 | L11 _ => 11 | L13 => 13 | L28 => 28 | L29 => 29
  | L37 _ => 37 | L38 _ => 38 | L39 _ _ => 39 | L40 _ _ _ => 40
  | L47 _ _ => 47 | L59 _ _ => 59 | L60 _ _ => 60 | L62 _ _ => 62
  | L75 _ _ _ => 75 | L76 _ _ _ => 76 | L169 _ _ _ => 169
  | L170 _ _ _ => 170 | L183 _ _ _ => 183 | L188 _ _ _ => 188
  | L190 _ _ _ => 190 | L191 _ _ _ => 191 | L197 _ _ _ _ => 197
  | L201 _ _ => 201 | L202 _ _ => 202 | L205 _ _ _ => 205
  | L209 _ _ _ => 209 | L210 _ _ _ => 210 | L211 _ _ _ => 211
  | L216 _ => 216 | LEnd => 217
  end.

(** Which status request an entry is, if any. *)
Definition is_import_poll (e : entry) : bool :=
  match e with ECall (GetGeometryImport _ _) _ => true | _ => false end.

Definition is_mesh_poll (e : entry) : bool :=
  match e with ECall (GetMeshOperation _ _) _ => true | _ => false end.

Definition is_run_poll (e : entry) : bool :=
  match e with ECall (GetSimulationRun _ _ _) _ => true | _ => false end.

Definition is_sleep (e : entry) : bool :=
  match e with ESleep _ => true | _ => false end.

Definition is_exit (e : entry) : bool :=
  match e with EExit _ => true | _ => false end.

Definition is_call (e : entry) : bool :=
  match e with ECall _ _ => true | _ => false end.

Definition is_create_simulation (e : entry) : bool :=
  match e with ECall (CreateSimulation _ _) _ => true | _ => false end.

Definition is_update_simulation (e : entry) : bool :=
  match e with ECall (UpdateSimulation _ _ _) _ => true | _ => false end.

(** Reading a value sent to the SDK: an attribute of an object, an item
    of a list. *)
Definition attribute (name : string) (v : value) : option value :=
  match v with
  | VObj _ _ kwargs => assoc_get name kwargs
  | _ => None
  end.

Definition item (i : nat) (v : value) : option value :=
  match v with
  | VList items => nth_error items i
  | _ => None
  end.

Definition and_then {A B : Type} (o : option A) (f : A -> option B) : option B :=
  match o with
  | Some a => f a
  | None => None
  end.

(** [spec.model.materials[0].topological_reference.entities] *)
Definition material_entities (spec : value) : option value :=
  and_then (attribute "model" spec) (fun model =>
  and_then (attribute "materials" model) (fun materials =>
  and_then (item 0 materials) (fun material =>
  and_then (attribute "topological_reference" material) (fun reference =>
  attribute "entities" reference)))).

(** The points past the check of the API key. *)
Definition past_check (pt : point) : Prop :=
  match pt with
  | L10 | L13 => False
  | L11 api_key => truthy api_key = true
  | _ => True
  end.

(** The messages of the script other than the status line and the
    results URL. *)
Definition fixed_messages : list string :=
  [error_message; "Creating project..."; "Uploading geometry...";
   "Importing geometry..."; "Setting up simulation..."; "Creating mesh...";
   "Meshing..."; "Running simulation..."; complete_message].

(** ** A scripted service, to run the script on concrete inputs *)

(** The scripted service counts the status requests it has answered per
    job; a job reports [last] once it has been polled [polls] times. *)
Record scenario : Type := {
  key : option string;
  import_polls : nat;
  import_last : string;
  bodies : list GeometryMapping.t;
  mesh_polls : nat;
  mesh_last : string;
  run_polls : nat;
  run_last : string
}.

Definition status_after (seen polls : nat) (last : string) : string :=
  if Nat.leb polls seen then last else "RUNNING".

Definition fetched_simulation : object :=
  {| cls := "SimulationSpec";
     attrs := [("name", VStr "Harmonic Response"); ("mesh_id", VNone);
               ("geometry_id", VStr "g-1")] |}.

Definition scripted_respond (sc : scenario) (c : call) (seen : nat * nat * nat)
  : reply (result c) * (nat * nat * nat) :=
  let '(i, m, r) := seen in
  match c return reply (result c) * (nat * nat * nat) with
  | ApiClient _ => (Returns tt, seen)
  | CreateProject _ => (Returns (Project.Make "p-1"), seen)
  | CreateStorage => (Returns (Storage.Make "https://storage/1" "s-1"), seen)
  | ReadFile _ => (Returns "ISO-10303-21;", seen)
  | RestPUT _ _ _ => (Returns tt, seen)
  | ImportGeometry _ _ =>
      (Returns (GeometryImport.Make (status_after 0 (import_polls sc) (import_last sc))
                  "gi-1" "g-1"), seen)
  | GetGeometryImport _ _ =>
      (Returns (GeometryImport.Make (status_after (S i) (import_polls sc) (import_last sc))
                  "gi-1" "g-1"), (S i, m, r))
  | GetGeometryMappings _ _ _ _ => (Returns (GeometryMappings.Make (bodies sc)), seen)
  | CreateSimulation _ _ => (Returns (Simulation.Make "sim-1"), seen)
  | CreateMeshOperation _ _ =>
      (Returns (MeshOperation.Make "mo-1"
                  (status_after 0 (mesh_polls sc) (mesh_last sc)) ""), seen)
  | StartMeshOperation _ _ _ => (Returns tt, seen)
  | GetMeshOperation _ _ =>
      (Returns (MeshOperation.Make "mo-1"
                  (status_after (S m) (mesh_polls sc) (mesh_last sc)) "mesh-1"),
       (i, S m, r))
  | GetSimulation _ _ => (Returns fetched_simulation, seen)
  | UpdateSimulation _ _ _ => (Returns tt, seen)
  | CreateSimulationRun _ _ _ =>
      (Returns (SimulationRun.Make "run-1"
                  (status_after 0 (run_polls sc) (run_last sc)) 0), seen)
  | StartSimulationRun _ _ _ => (Returns tt, seen)
  | GetSimulationRun _ _ _ =>
      (Returns (SimulationRun.Make "run-1"
                  (status_after (S r) (run_polls sc) (run_last sc))
                  (if Nat.leb (run_polls sc) (S r) then 1 else 0.5)), (i, m, S r))
  end.

Definition scripted (sc : scenario) : environment :=
  {| state := nat * nat * nat;
     init := (0, 0, 0);
     environ := fun name =>
       if String.eqb name "SIMSCALE_API_KEY" then key sc else None;
     elapse := fun _ seen => seen;
     respond := scripted_respond sc |}.

(** A service on which every job finishes at its second status request and
    the geometry has one region. *)
Definition happy : scenario :=
  {| key := Some "secret";
     import_polls := 2; import_last := "FINISHED";
     bodies := [GeometryMapping.Make "solid_1"];
     mesh_polls := 2; mesh_last := "FINISHED";
     run_polls := 2; run_last := "FINISHED" |}.

(** A service on which every job has already failed when it is created
    and the geometry has no region. *)
Definition failing : scenario :=
  {| key := Some "secret";
     import_polls := 0; import_last := "FAILED";
     bodies := [];
     mesh_polls := 0; mesh_last := "FAILED";
     run_polls := 0; run_last := "FAILED" |}.

(** The same services without the API key, and with an empty one. *)
Definition no_key : scenario :=
  {| key := None;
     import_polls := 2; import_last := "FINISHED";
     bodies := [GeometryMapping.Make "solid_1"];
     mesh_polls := 2; mesh_last := "FINISHED";
     run_polls := 2; run_last := "FINISHED" |}.

Definition empty_key : scenario :=
  {| key := Some "";
     import_polls := 0; import_last := "FAILED";
     bodies := [];
     mesh_polls := 0; mesh_last := "FAILED";
     run_polls := 0; run_last := "FAILED" |}.

(** A service whose mesh operation never reaches a terminal status. *)
Definition stuck : scenario :=
  {| key := Some "secret";
     import_polls := 1; import_last := "FINISHED";
     bodies := [GeometryMapping.Make "solid_1"];
     mesh_polls := 0; mesh_last := "RUNNING";
     run_polls := 0; run_last := "FINISHED" |}.

(** The points up to the mesh loop, as long as the mesh status is not
    terminal. *)
Definition meshing (pt : point) : Prop :=
  match pt with
  | L13 | L197 _ _ _ _ | L201 _ _ | L202 _ _ | L205 _ _ _ | L209 _ _ _
  | L210 _ _ _ | L211 _ _ _ | L216 _ | LEnd => False
  | L11 api_key => truthy api_key = true
  | L191 _ _ mesh_op => terminal (MeshOperation.status mesh_op) = false
  | _ => True
  end.

(** Sixty steps are enough for the services that end. *)
Definition happy_trace : list entry := trace (scripted happy) 60.

Definition failing_trace : list entry := trace (scripted failing) 60.


(** ** Observations on calls, points and traces *)

(** The source line of the statement that makes a call. *)
Definition call_line (c : call) : nat :=
  match c with
  | ApiClient _ => 18
  | CreateProject _ => 29
  | CreateStorage => 38
  | ReadFile _ => 39
  | RestPUT _ _ _ => 40
  | ImportGeometry _ _ => 47
  | GetGeometryImport _ _ => 62
  | GetGeometryMappings _ _ _ _ => 69
  | CreateSimulation _ _ => 76
  | CreateMeshOperation _ _ => 170
  | StartMeshOperation _ _ _ => 183
  | GetMeshOperation _ _ => 190
  | GetSimulation _ _ => 196
  | UpdateSimulation _ _ _ => 198
  | CreateSimulationRun _ _ _ => 202
  | StartSimulationRun _ _ _ => 205
  | GetSimulationRun _ _ _ => 209
  end.

(** The calls made inside a poll loop. *)
Definition is_status_request (c : call) : bool :=
  match c with
  | GetGeometryImport _ _ | GetMeshOperation _ _ | GetSimulationRun _ _ _ => true
  | _ => false
  end.

(** The line of the first call that can still be made from a point (217
    when none can). *)
Definition next_call_line (pt : point) : nat :=
  match pt with
  | L10 | L11 _ | L13 => 18
  | L28 | L29 => 29
  | L37 _ | L38 _ => 38
  | L39 _ _ => 39
  | L40 _ _ _ => 40
  | L47 _ _ => 47
  | L59 _ _ | L62 _ _ => 62
  | L60 _ gi => if terminal (GeometryImport.status gi) then 69 else 62
  | L75 _ _ _ | L76 _ _ _ => 76
  | L169 _ _ _ | L170 _ _ _ => 170
  | L183 _ _ _ => 183
  | L188 _ _ _ | L190 _ _ _ => 190
  | L191 _ _ mo => if terminal (MeshOperation.status mo) then 196 else 190
  | L197 _ _ _ _ => 198
  | L201 _ _ | L202 _ _ => 202
  | L205 _ _ _ => 205
  | L209 _ _ _ => 209
  | L210 _ _ run | L211 _ _ run =>
      if terminal (SimulationRun.status run) then 217 else 209
  | L216 _ | LEnd => 217
  end.

(** The project and the simulation a call names. *)
Definition call_project (c : call) : option string :=
  match c with
  | ImportGeometry p _ | GetGeometryImport p _ | GetGeometryMappings p _ _ _
  | CreateSimulation p _ | CreateMeshOperation p _ | StartMeshOperation p _ _
  | GetMeshOperation p _ | GetSimulation p _ | UpdateSimulation p _ _
  | CreateSimulationRun p _ _ | StartSimulationRun p _ _
  | GetSimulationRun p _ _ => Some p
  | _ => None
  end.

Definition call_simulation (c : call) : option string :=
  match c with
  | StartMeshOperation _ _ sid | GetSimulation _ sid | UpdateSimulation _ sid _
  | CreateSimulationRun _ sid _ | StartSimulationRun _ sid _
  | GetSimulationRun _ sid _ => Some sid
  | _ => None
  end.

(** The variables [project_id] and [simulation_id] at a point, once they
    are assigned. *)
Definition point_project (pt : point) : option string :=
  match pt with
  | L10 | L11 _ | L13 | L28 | L29 | LEnd => None
  | L37 p | L38 p | L39 p _ | L40 p _ _ | L47 p _ | L59 p _ | L60 p _
  | L62 p _ | L75 p _ _ | L76 p _ _ | L169 p _ _ | L170 p _ _ | L183 p _ _
  | L188 p _ _ | L190 p _ _ | L191 p _ _ | L197 p _ _ _ | L201 p _
  | L202 p _ | L205 p _ _ | L209 p _ _ | L210 p _ _ | L211 p _ _
  | L216 p => Some p
  end.

Definition point_simulation (pt : point) : option string :=
  match pt with
  | L169 _ _ sid | L170 _ _ sid | L183 _ sid _ | L188 _ sid _ | L190 _ sid _
  | L191 _ sid _ | L197 _ sid _ _ | L201 _ sid | L202 _ sid | L205 _ sid _
  | L209 _ sid _ | L210 _ sid _ | L211 _ sid _ => Some sid
  | _ => None
  end.

(** Entries that carry a terminal status of the import, of the mesh
    operation, of the run. *)
Definition terminal_import_status (e : entry) : bool :=
  match e with
  | ECall (ImportGeometry _ _) (Returns r) => terminal (GeometryImport.status r)
  | ECall (GetGeometryImport _ _) (Returns r) => terminal (GeometryImport.status r)
  | _ => false
  end.

Definition terminal_mesh_status (e : entry) : bool :=
  match e with
  | ECall (GetMeshOperation _ _) (Returns r) => terminal (MeshOperation.status r)
  | _ => false
  end.

Definition terminal_run_status (e : entry) : bool :=
  match e with
  | ECall (GetSimulationRun _ _ _) (Returns r) => terminal (SimulationRun.status r)
  | _ => false
  end.

(** The points at which the import, the mesh operation, the run is known
    to have reported a terminal status. *)
Definition import_done (pt : point) : bool :=
  match pt with
  | L10 | L11 _ | L13 | L28 | L29 | L37 _ | L38 _ | L39 _ _ | L40 _ _ _
  | L47 _ _ | L62 _ _ => false
  | L59 _ gi | L60 _ gi => terminal (GeometryImport.status gi)
  | _ => true
  end.

Definition mesh_done (pt : point) : bool :=
  match pt with
  | L191 _ _ mo => terminal (MeshOperation.status mo)
  | L197 _ _ _ _ | L201 _ _ | L202 _ _ | L205 _ _ _ | L209 _ _ _
  | L210 _ _ _ | L211 _ _ _ | L216 _ | LEnd => true
  | _ => false
  end.

Definition run_done (pt : point) : bool :=
  match pt with
  | L210 _ _ run | L211 _ _ run => terminal (SimulationRun.status run)
  | L216 _ | LEnd => true
  | _ => false
  end.

(** How many entries of a trace satisfy a test. *)
Definition count (test : entry -> bool) (tr : list entry) : nat :=
  List.length (filter test tr).

Definition is_sleep_of (seconds : Z) (e : entry) : bool :=
  match e with
  | ESleep s => Z.eqb s seconds
  | _ => false
  end.

(** In the iteration of a loop that a point belongs to, whether the sleep
    (import loop) or the status request (mesh and run loops) has been made
    and its counterpart not yet. *)
Definition import_slept (pt : point) : nat :=
  match pt with L62 _ _ => 1 | _ => 0 end.

Definition mesh_requested (pt : point) : nat :=
  if Nat.leb 191 (line pt) then 1 else 0.

Definition run_requested (pt : point) : nat :=
  if Nat.leb 210 (line pt) then 1 else 0.


(** * Properties *)

(** ** The interaction tree and the transition system agree *)

Section Agreement.

Variable env : environment.

Lemma exec_observe (R : Type) (t u : itree scriptE R) fuel (s : state env) :
  observe t = observe u -> exec env fuel t s = exec env fuel u s.
Proof.
  intros H. destruct fuel; simpl; [reflexivity|]. rewrite H. reflexivity.
Qed.

Lemma exec_vis (R T : Type) (t : itree scriptE R) (e : scriptE T)
      (k : T -> itree scriptE R) fuel (s : state env) :
  observe t = VisF e k ->
  exec env (S fuel) t s =
  match perform env e s with
  | (a, Some (x, s')) => log a (exec env fuel (k x) s')
  | (a, None) => (ended_by a, [a])
  end.
Proof. intros H. simpl. rewrite H. reflexivity. Qed.



Lemma agree_upto_0 (R : Type) (t : itree scriptE R) pt : agree_upto env 0 t pt.
Proof.
  intros fuel s H. exists 0. assert (fuel = 0) by lia. subst. simpl. auto.
Qed.

Lemma agree_upto_le (R : Type) N M (t : itree scriptE R) pt :
  M <= N -> agree_upto env N t pt -> agree_upto env M t pt.
Proof. intros HM H fuel s Hf. apply H. lia. Qed.

Lemma agree_upto_observe (R : Type) N (t u : itree scriptE R) pt :
  observe t = observe u -> agree_upto env N u pt -> agree_upto env N t pt.
Proof.
  intros Hobs H fuel s Hf. destruct (H fuel s Hf) as (n & H1 & H2 & H3).
  exists n. rewrite (exec_observe _ _ _ _ Hobs). auto.
Qed.

Lemma agree_upto_ret (R : Type) N (t : itree scriptE R) (r : R) pt :
  observe t = RetF r -> at_point pt = Halt -> agree_upto env N t pt.
Proof.
  intros Ht Hp fuel s _. exists fuel. destruct fuel; simpl.
  - auto.
  - rewrite Ht, Hp. repeat split; lia.
Qed.

Lemma agree_upto_vis (R T : Type) N (t : itree scriptE R) pt
      (e : scriptE T) (k : T -> itree scriptE R) (next : T -> point) :
  observe t = VisF e k -> at_point pt = Step e next ->
  (forall x, agree_upto env N (k x) (next x)) ->
  agree_upto env (S N) t pt.
Proof.
  intros Ht Hp H fuel s Hf. destruct fuel as [|fuel].
  - exists 0. simpl. auto.
  - simpl exec. rewrite Ht. destruct (perform env e s) as [a [[x s']|]] eqn:Hperf.
    + destruct (H x fuel s') as (n & H1 & H2 & H3); [lia|].
      exists (S n). simpl. rewrite Hp, Hperf, H3. repeat split; lia.
    + exists (S fuel). simpl. rewrite Hp, Hperf. repeat split; lia.
Qed.

(** An event followed by the silent step that closes a loop iteration. *)
Lemma agree_upto_vis_tau (R T : Type) N (t : itree scriptE R) pt
      (e : scriptE T) (k : T -> itree scriptE R) (next : T -> point) :
  observe t = VisF e k -> at_point pt = Step e next ->
  (forall x, exists t', observe (k x) = TauF t' /\ agree_upto env N t' (next x)) ->
  agree_upto env (S N) t pt.
Proof.
  intros Ht Hp H fuel s Hf. destruct fuel as [|fuel].
  - exists 0. simpl. auto.
  - simpl exec. rewrite Ht. destruct (perform env e s) as [a [[x s']|]] eqn:Hperf.
    + destruct (H x) as (t' & Hk & Hagree).
      destruct fuel as [|fuel].
      * exists 1. simpl. rewrite Hp, Hperf. simpl. repeat split; lia.
      * simpl exec. rewrite Hk.
        destruct (Hagree fuel s') as (n & H1 & H2 & H3); [lia|].
        exists (S n). simpl. rewrite Hp, Hperf, H3. repeat split; lia.
    + exists (S fuel). simpl. rewrite Hp, Hperf. repeat split; lia.
Qed.

(** One unfolding of [bind] after a result and of [iter], as equalities of
    observations; [observe_bind] is the library's. *)
Lemma observe_bind_ret (E : Type -> Type) (R S : Type) (r : R) (k : R -> itree E S) :
  observe (ITree.bind (Ret r) k) = observe (k r).
Proof. apply observing_observe, bind_ret_. Qed.

Lemma observe_iter (E : Type -> Type) (I R : Type) (body : I -> itree E (I + R)) (i : I) :
  observe (ITree.iter body i) =
  observe (lr <- body i;;
           match lr with
           | inl l => Tau (ITree.iter body l)
           | inr r => Ret r
           end).
Proof. apply observing_observe, unfold_aloop_. Qed.

End Agreement.

(** [expose] computes the head of the tree under [observe]; [resume]
    passes the answer of the last event to the rest of the script;
    [step] matches one event of the tree with one move of the transition
    system. *)
Ltac expose :=
  match goal with
  | |- observe ?t = _ =>
      let v := eval hnf in (observe t) in
      change (observe t) with v
  end.

Ltac resume :=
  try (eapply agree_upto_observe; [apply observe_bind_ret|]; cbv beta).

Ltac at_point_is :=
  first
    [ reflexivity
    | simpl;
      match goal with
      | H : terminal _ = _ |- _ => rewrite H
      | H : truthy _ = _ |- _ => rewrite H
      end; reflexivity ].

Ltac step :=
  match goal with
  | |- agree_upto _ ?N _ _ =>
      destruct N; [apply agree_upto_0|];
      eapply agree_upto_vis; [expose; reflexivity | at_point_is | intros ?; resume]
  end.

Section Script_agrees.

Variable env : environment.

(** Lines 60-64 against points [L60] and [L62]. *)
Lemma import_loop_agrees N :
  forall project_id geometry_import (k : GeometryImport.t -> itree scriptE unit),
    (forall M gi, terminal (GeometryImport.status gi) = true ->
                  agree_upto env M (k gi) (L60 project_id gi)) ->
    agree_upto env N (x <- wait_for_import project_id geometry_import;; k x)
      (L60 project_id geometry_import).
Proof.
  induction N as [|N IH]; intros pid gi k Hk.
  - apply agree_upto_0.
  - destruct (terminal (GeometryImport.status gi)) eqn:Hterm.
    + eapply agree_upto_observe; [|apply Hk; exact Hterm].
      unfold wait_for_import. rewrite observe_bind, observe_iter, observe_bind.
      rewrite Hterm. reflexivity.
    + eapply agree_upto_vis.
      * unfold wait_for_import. rewrite observe_bind, observe_iter, observe_bind.
        rewrite Hterm. reflexivity.
      * at_point_is.
      * intros []. apply agree_upto_le with (N := S N); [lia|].
        eapply agree_upto_vis_tau.
        -- expose. reflexivity.
        -- reflexivity.
        -- intros gi'. eexists. split; [expose; reflexivity|].
           apply (IH pid gi' k Hk).
Qed.

(** Lines 189-193 against points [L190] and [L191]. *)
Lemma mesh_loop_agrees N :
  forall project_id simulation_id mesh_op (k : MeshOperation.t -> itree scriptE unit),
    (forall M mo, terminal (MeshOperation.status mo) = true ->
                  agree_upto env M (k mo) (L191 project_id simulation_id mo)) ->
    agree_upto env N (x <- wait_for_mesh project_id mesh_op;; k x)
      (L190 project_id simulation_id mesh_op).
Proof.
  induction N as [|N IH]; intros pid sid mo k Hk.
  - apply agree_upto_0.
  - eapply agree_upto_vis.
    + unfold wait_for_mesh. expose. reflexivity.
    + reflexivity.
    + intros mo'. destruct (terminal (MeshOperation.status mo')) eqn:Hterm.
      * eapply agree_upto_observe; [|apply Hk; exact Hterm].
        rewrite observe_bind, observe_bind, observe_bind_ret, Hterm. reflexivity.
      * destruct N as [|N]; [apply agree_upto_0|].
        eapply agree_upto_vis_tau.
        -- rewrite observe_bind, observe_bind, observe_bind_ret, Hterm. reflexivity.
        -- at_point_is.
        -- intros []. eexists. split; [expose; reflexivity|].
           eapply agree_upto_le; [|apply (IH pid sid mo' k Hk)]. lia.
Qed.

(** Lines 208-213 against points [L209], [L210] and [L211]. *)
Lemma run_loop_agrees N :
  forall project_id simulation_id run (k : SimulationRun.t -> itree scriptE unit),
    (forall M r, terminal (SimulationRun.status r) = true ->
                 agree_upto env M (k r) (L211 project_id simulation_id r)) ->
    agree_upto env N (x <- wait_for_run project_id simulation_id run;; k x)
      (L209 project_id simulation_id run).
Proof.
  induction N as [|N IH]; intros pid sid run k Hk.
  - apply agree_upto_0.
  - eapply agree_upto_vis.
    + unfold wait_for_run. expose. reflexivity.
    + reflexivity.
    + intros run'. destruct N as [|N]; [apply agree_upto_0|].
      eapply agree_upto_vis.
      * expose. reflexivity.
      * reflexivity.
      * intros []. destruct (terminal (SimulationRun.status run')) eqn:Hterm.
        -- eapply agree_upto_observe; [|apply Hk; exact Hterm].
           rewrite !observe_bind. reflexivity.
        -- destruct N as [|N]; [apply agree_upto_0|].
           eapply agree_upto_vis_tau.
           ++ rewrite !observe_bind. reflexivity.
           ++ at_point_is.
           ++ intros []. eexists. split; [expose; reflexivity|].
              eapply agree_upto_le; [|apply (IH pid sid run' k Hk)]. lia.
Qed.

(** The script and the transition system started at line 10 produce the
    same outcome and trace; the tree takes at most twice as many steps as
    the transition system takes events. *)
Lemma main_walks N : agree_upto env N main L10.
Proof.
  unfold main. step.
  destruct (truthy x) eqn:Hkey; simpl negb; cbv iota.
  - resume. unfold pipeline. do 9 step.
    apply import_loop_agrees. intros M gi Hterm. clear N. do 7 step.
    apply mesh_loop_agrees. intros M' mo Hterm'. clear M. do 5 step.
    apply run_loop_agrees. intros M r Hterm''. clear M'. do 2 step.
    eapply agree_upto_ret; reflexivity.
  - do 2 step. match goal with v : Empty_set |- _ => destruct v end.
Qed.

End Script_agrees.

(** ** Runs of the transition system *)

Local Open Scope list_scope.

Section Runs.

Variable env : environment.

Lemma walk_S n pt (s : state env) :
  walk env (S n) pt s =
  match advance env pt s with
  | None => (Finished, [])
  | Some (a, Some (pt', s')) => log a (walk env n pt' s')
  | Some (a, None) => (ended_by a, [a])
  end.
Proof.
  simpl. unfold advance. destruct (at_point pt) as [|T e next]; [reflexivity|].
  destruct (perform env e s) as [a [[x s']|]]; reflexivity.
Qed.

Lemma reaches_app pt s tr1 pt1 s1 tr2 pt2 (s2 : state env) :
  reaches env pt s tr1 pt1 s1 -> reaches env pt1 s1 tr2 pt2 s2 ->
  reaches env pt s (tr1 ++ tr2) pt2 s2.
Proof.
  induction 1 as [|pt s a pa sa tr pb sb Hadv Hr IH]; intros H2; simpl.
  - exact H2.
  - eapply reaches_move; eauto.
Qed.

Lemma reaches_snoc pt s tr pt1 s1 a pt2 (s2 : state env) :
  reaches env pt s tr pt1 s1 -> advance env pt1 s1 = Some (a, Some (pt2, s2)) ->
  reaches env pt s (tr ++ [a]) pt2 s2.
Proof.
  intros H1 H2. eapply reaches_app; [exact H1|].
  eapply reaches_move; [exact H2|constructor].
Qed.

(** The last move of a path. *)
Lemma reaches_snoc_inv tr : forall pt s a pt2 (s2 : state env),
  reaches env pt s (tr ++ [a]) pt2 s2 ->
  exists pt1 s1, reaches env pt s tr pt1 s1 /\
                 advance env pt1 s1 = Some (a, Some (pt2, s2)).
Proof.
  induction tr as [|b tr IH]; intros pt s a pt2 s2 H; simpl in H.
  - inversion H as [|? ? ? pa sa ? ? ? Hadv Hr]; subst.
    inversion Hr; subst. exists pt, s. split; [constructor|assumption].
  - inversion H as [|? ? ? pa sa ? ? ? Hadv Hr]; subst.
    destruct (IH _ _ _ _ _ Hr) as (pt1 & s1 & H1 & H2).
    exists pt1, s1. split; [|assumption].
    eapply reaches_move; eauto.
Qed.

(** A run that passes through a point continues as a run from there. *)
Lemma walk_reaches pt s tr pt' (s' : state env) :
  reaches env pt s tr pt' s' ->
  forall m, walk env (List.length tr + m) pt s =
            (fst (walk env m pt' s'), tr ++ snd (walk env m pt' s')).
Proof.
  induction 1 as [|pt s a pa sa tr pb sb Hadv Hr IH]; intros m.
  - simpl. destruct (walk env m pt s); reflexivity.
  - change (List.length (a :: tr) + m) with (S (List.length tr + m)).
    rewrite walk_S, Hadv, IH. reflexivity.
Qed.

(** Every entry of a run is the move of a point the run passes through. *)
Lemma walk_split pre : forall n pt (s : state env) e post,
  snd (walk env n pt s) = pre ++ e :: post ->
  exists pt1 s1 nxt,
    reaches env pt s pre pt1 s1 /\
    advance env pt1 s1 = Some (e, nxt) /\
    (post = [] \/
     exists pt2 s2 m, nxt = Some (pt2, s2) /\ post = snd (walk env m pt2 s2)).
Proof.
  induction pre as [|b pre IH]; intros n pt s e post H.
  - destruct n as [|n]; [discriminate|]. rewrite walk_S in H.
    destruct (advance env pt s) as [[a [[pt' s']|]]|] eqn:Hadv; simpl in H.
    + injection H as -> <-. exists pt, s, (Some (pt', s')).
      split; [constructor|]. split; [assumption|]. right. eauto.
    + injection H as -> <-. exists pt, s, None.
      split; [constructor|]. split; [assumption|]. left. reflexivity.
    + discriminate.
  - destruct n as [|n]; [discriminate|]. rewrite walk_S in H.
    destruct (advance env pt s) as [[a [[pt' s']|]]|] eqn:Hadv; simpl in H.
    + injection H as -> H.
      destruct (IH _ _ _ _ _ H) as (pt1 & s1 & nxt & H1 & H2 & H3).
      exists pt1, s1, nxt. split; [|auto].
      eapply reaches_move; eauto.
    + injection H as _ H. destruct pre; discriminate.
    + discriminate.
Qed.

(** Longer runs extend shorter ones, and a run that has ended stays as it
    is. *)
Lemma walk_prefix n : forall m pt (s : state env),
  n <= m ->
  (exists rest, snd (walk env m pt s) = snd (walk env n pt s) ++ rest) /\
  (fst (walk env n pt s) <> Running -> walk env m pt s = walk env n pt s).
Proof.
  induction n as [|n IH]; intros m pt s Hle.
  - simpl. split; [eauto|]. intros H. congruence.
  - destruct m as [|m]; [lia|]. rewrite !walk_S.
    destruct (advance env pt s) as [[a [[pt' s']|]]|]; simpl.
    + destruct (IH m pt' s') as [[rest Hrest] Hend]; [lia|]. split.
      * exists rest. rewrite Hrest. reflexivity.
      * intros H. unfold log. rewrite (Hend H). reflexivity.
    + split; [exists []; reflexivity|reflexivity].
    + split; [exists []; reflexivity|reflexivity].
Qed.

Lemma reaches_last pt s tr pt' (s' : state env) :
  reaches env pt s tr pt' s' ->
  (tr = [] /\ pt' = pt) \/
  (exists tr' a pt1 s1,
      tr = tr' ++ [a] /\ reaches env pt s tr' pt1 s1 /\
      advance env pt1 s1 = Some (a, Some (pt', s'))).
Proof.
  destruct tr as [|a tr'] using rev_ind; intros H.
  - left. inversion H; subst. auto.
  - right. apply reaches_snoc_inv in H. destruct H as (pt1 & s1 & H1 & H2).
    exists tr', a, pt1, s1. auto.
Qed.

(** Only [sys.exit] and an exception end a run before the last line. *)
Lemma advance_end pt (s : state env) a :
  advance env pt s = Some (a, None) ->
  (exists code, a = EExit code) \/ (exists c exn, a = ECall c (Raises exn)).
Proof.
  unfold advance. destruct (at_point pt) as [|T e next]; [discriminate|].
  destruct e; simpl; try discriminate.
  - intros H. injection H as <-. left. eauto.
  - destruct (respond env c s) as [[x|exn] s']; [discriminate|].
    intros H. injection H as <-. right. eauto.
Qed.

(** A run that is still going has made one move per step. *)
Lemma walk_running n : forall pt (s : state env),
  fst (walk env n pt s) = Running -> List.length (snd (walk env n pt s)) = n.
Proof.
  induction n as [|n IH]; intros pt s H; [reflexivity|].
  rewrite walk_S in *.
  destruct (advance env pt s) as [[a [[pt' s']|]]|] eqn:Hadv; simpl in *.
  - f_equal. apply IH. assumption.
  - destruct (advance_end _ _ Hadv) as [[code ->]|(c & exn & ->)]; discriminate.
  - discriminate.
Qed.

(** A property of the entries that holds along every move from the
    points of an invariant holds of every entry of a run. *)
Lemma walk_invariant (I : point -> Prop) (P : entry -> Prop) :
  (forall pt (s : state env) a nxt,
      I pt -> advance env pt s = Some (a, nxt) ->
      P a /\ match nxt with Some (pt', _) => I pt' | None => True end) ->
  forall n pt (s : state env), I pt -> Forall P (snd (walk env n pt s)).
Proof.
  intros Hstep. induction n as [|n IH]; intros pt s HI; [constructor|].
  rewrite walk_S.
  destruct (advance env pt s) as [[a [[pt' s']|]]|] eqn:Hadv; simpl.
  - destruct (Hstep _ _ _ _ HI Hadv) as [Ha HI']. constructor; auto.
  - destruct (Hstep _ _ _ _ HI Hadv) as [Ha _]. constructor; auto.
  - constructor.
Qed.

(** A run that left through [sys.exit] has the exit as an entry. *)
Lemma walk_exited n : forall pt (s : state env) code,
  fst (walk env n pt s) = Exited code -> In (EExit code) (snd (walk env n pt s)).
Proof.
  induction n as [|n IH]; intros pt s code H; [discriminate|].
  rewrite walk_S in *.
  destruct (advance env pt s) as [[a [[pt' s']|]]|] eqn:Hadv; simpl in *.
  - right. apply IH. assumption.
  - left. destruct a as [| | | |c [x|exn]]; try discriminate.
    injection H as ->. reflexivity.
  - discriminate.
Qed.

(** A run that stays among points from which a move leads on never ends. *)
Lemma walk_goes_on (I : point -> Prop) :
  (forall pt (s : state env),
      I pt -> exists a pt' s', advance env pt s = Some (a, Some (pt', s')) /\ I pt') ->
  forall n pt (s : state env), I pt -> fst (walk env n pt s) = Running.
Proof.
  intros Hstep. induction n as [|n IH]; intros pt s HI; [reflexivity|].
  rewrite walk_S. destruct (Hstep pt s HI) as (a & pt' & s' & -> & HI').
  simpl. apply IH. assumption.
Qed.

(** A run that died of an exception ends with the call that raised it. *)
Lemma walk_uncaught n : forall pt (s : state env) exn,
  fst (walk env n pt s) = Uncaught exn ->
  exists pre c, snd (walk env n pt s) = pre ++ [ECall c (Raises exn)].
Proof.
  induction n as [|n IH]; intros pt s exn H; [discriminate|].
  rewrite walk_S in *.
  destruct (advance env pt s) as [[a [[pt' s']|]]|] eqn:Hadv; simpl in *.
  - destruct (IH _ _ _ H) as (pre & c & ->). exists (a :: pre), c. reflexivity.
  - destruct a as [| | | |c [x|exn']]; try discriminate.
    injection H as ->. exists [], c. reflexivity.
  - discriminate.
Qed.

End Runs.

(** [advance_cases H] splits a move [H : advance env pt s = Some _] by the
    point it starts from, the test made there and the answer received. *)
Ltac advance_cases H :=
  unfold advance in H;
  match type of H with
  | context [at_point ?pt] => destruct pt
  end;
  simpl in H;
  repeat match type of H with
         | context [if ?b then _ else _] => destruct b eqn:?
         end;
  simpl in H;
  try match type of H with
      | context [respond ?env ?c ?s] =>
          destruct (respond env c s) as [[? | ?] ?]
      end;
  simpl in H.

(** ** Runs of the script are runs of the transition system *)

Section Script_runs.

Variable env : environment.

Lemma run_script_walk fuel :
  exists n, n <= fuel /\ fuel <= 2 * n /\
            run_script env fuel = walk env n L10 (init env).
Proof. apply (main_walks env (N := fuel)). lia. Qed.

Lemma walk_run_script n :
  exists fuel rest,
    trace env fuel = snd (walk env n L10 (init env)) ++ rest /\
    (fst (walk env n L10 (init env)) <> Running ->
     run_script env fuel = walk env n L10 (init env)).
Proof.
  destruct (run_script_walk (2 * n)) as (m & H1 & H2 & H3).
  destruct (walk_prefix env (n := n) (m := m) L10 (init env)) as [[rest Hrest] Hend]; [lia|].
  exists (2 * n), rest. unfold trace. rewrite H3. split; [assumption|].
  intros H. apply Hend. assumption.
Qed.


(** Every entry of a trace of the script was issued at a point reached
    from line 10, and what follows it is a run from the next point. *)
Lemma trace_split fuel pre e post :
  trace env fuel = pre ++ e :: post ->
  exists pt s nxt,
    reaches env L10 (init env) pre pt s /\
    advance env pt s = Some (e, nxt) /\
    (post = [] \/
     exists pt' s' m, nxt = Some (pt', s') /\ post = snd (walk env m pt' s')).
Proof.
  unfold trace. destruct (run_script_walk fuel) as (n & _ & _ & ->).
  apply walk_split.
Qed.

(** Whatever the transition system does from a reached point, the script
    does with enough steps. *)
Lemma reaches_extends tr pt s m :
  reaches env L10 (init env) tr pt s ->
  exists fuel rest,
    trace env fuel = tr ++ snd (walk env m pt s) ++ rest /\
    (fst (walk env m pt s) <> Running ->
     run_script env fuel = (fst (walk env m pt s), tr ++ snd (walk env m pt s))).
Proof.
  intros H. pose proof (walk_reaches H m) as Hw.
  destruct (walk_run_script (List.length tr + m)) as (fuel & rest & H1 & H2).
  rewrite Hw in H1, H2. simpl in H1, H2.
  exists fuel, rest. split.
  - rewrite H1, app_assoc. reflexivity.
  - assumption.
Qed.

End Script_runs.

(** ** The API key check (lines 10-13) *)

Section Api_key.

Variable env : environment.

Lemma past_check_quiet n pt (s : state env) :
  past_check pt ->
  Forall (fun e => is_exit e = false /\ e <> EPrint error_message)
    (snd (walk env n pt s)).
Proof.
  apply walk_invariant. clear. intros pt s a nxt HI Hadv.
  advance_cases Hadv; simpl in HI; try contradiction; try discriminate Hadv;
    try (rewrite HI in *; discriminate);
    injection Hadv as <- <-; simpl; repeat split; auto; try discriminate.
Qed.

(** The first steps of the script, computed on the tree itself. *)
Lemma run_script_getenv fuel :
  run_script env (S fuel) =
  log (EGetenv "SIMSCALE_API_KEY" (environ env "SIMSCALE_API_KEY"))
    (exec env fuel
       ((if negb (truthy (environ env "SIMSCALE_API_KEY")) then
           print error_message;; sys_exit 1
         else Ret tt);;
        pipeline (environ env "SIMSCALE_API_KEY"))
       (init env)).
Proof.
  unfold run_script, main.
  erewrite exec_vis by (expose; reflexivity). cbn [perform].
  f_equal. apply exec_observe. reflexivity.
Qed.

Lemma exec_check_fails fuel (rest : itree scriptE unit) (s : state env) :
  exec env (S (S fuel))
    (((print error_message;; sys_exit 1) : itree scriptE unit);; rest) s =
  (Exited 1, [EPrint error_message; EExit 1]).
Proof.
  erewrite exec_vis by (expose; reflexivity). cbn [perform].
  erewrite exec_vis by (expose; reflexivity). reflexivity.
Qed.

Lemma exec_check_passes fuel api_key (s : state env) :
  exists a rest,
    snd (exec env (S fuel) (Ret tt;; pipeline api_key) s) =
    ECall (ApiClient (set_api_key Configuration "X-API-KEY" (of_getenv api_key))) a
    :: rest.
Proof.
  unfold pipeline.
  erewrite exec_vis by (expose; reflexivity). cbn [perform].
  destruct (respond env _ s) as [[x|exn] s']; simpl; eauto.
Qed.

(** C1. If [SIMSCALE_API_KEY] is absent or empty, the script prints the
    error message and exits with status 1, and these are its only
    actions: no client is constructed and no request is made.  If it is
    present, the script goes on to construct the API client, and no run
    of it ever exits or prints the error. *)
Theorem missing_api_key_exits fuel :
  let api_key := environ env "SIMSCALE_API_KEY" in
  let stop :=
    [EGetenv "SIMSCALE_API_KEY" api_key; EPrint error_message; EExit 1] in
  if truthy api_key then
    Forall (fun e => is_exit e = false /\ e <> EPrint error_message)
      (trace env fuel) /\
    (forall code, outcome_of env fuel <> Exited code) /\
    exists a rest,
      trace env (2 + fuel) =
      EGetenv "SIMSCALE_API_KEY" api_key
      :: ECall (ApiClient (set_api_key Configuration "X-API-KEY" (of_getenv api_key))) a
      :: rest
  else
    trace env fuel = firstn fuel stop /\
    Forall (fun e => is_call e = false) stop /\
    run_script env (3 + fuel) = (Exited 1, stop).
Proof.
  intros api_key stop.
  destruct (truthy api_key) eqn:Hkey.
  - assert (Hquiet : Forall (fun e => is_exit e = false /\ e <> EPrint error_message)
                       (trace env fuel)).
    { unfold trace. destruct (run_script_walk env fuel) as (n & _ & _ & ->).
      destruct n as [|n]; [constructor|]. rewrite walk_S. simpl.
      constructor; [split; [reflexivity|discriminate]|].
      apply past_check_quiet. exact Hkey. }
    split; [exact Hquiet|]. split.
    + intros code Hout. unfold outcome_of in Hout.
      unfold trace in Hquiet.
      destruct (run_script_walk env fuel) as (n & _ & _ & Hn).
      rewrite Hn in Hout, Hquiet. apply walk_exited in Hout.
      rewrite Forall_forall in Hquiet. destruct (Hquiet _ Hout) as [Hex _].
      discriminate.
    + unfold trace. change (2 + fuel) with (S (S fuel)).
      rewrite run_script_getenv. fold api_key. rewrite Hkey.
      cbn [negb log snd].
      destruct (exec_check_passes fuel api_key (init env)) as (a & rest & ->).
      eauto.
  - split; [|split].
    + unfold trace. destruct fuel as [|fuel]; [reflexivity|].
      rewrite run_script_getenv. fold api_key. rewrite Hkey.
      cbn [negb log snd].
      destruct fuel as [|fuel]; [reflexivity|].
      destruct fuel as [|fuel].
      * erewrite exec_vis by (expose; reflexivity). reflexivity.
      * rewrite exec_check_fails. subst stop. simpl. rewrite firstn_nil.
        reflexivity.
    + repeat constructor.
    + change (3 + fuel) with (S (S (S fuel))).
      rewrite run_script_getenv. fold api_key. rewrite Hkey.
      cbn [negb]. rewrite exec_check_fails. reflexivity.
Qed.

End Api_key.

(** ** The three poll loops *)

(** [same_entry H] splits an equation between two moves into equations
    between their parts. *)
Ltac same_entry H :=
  inversion H; subst;
  repeat match goal with
         | E : existT _ _ _ = existT _ _ _ |- _ =>
             apply Eqdep.EqdepTheory.inj_pair2 in E
         end;
  subst.

(** [stage_step HI Hadv] proves that a move from a point of stage at
    least [k] leaves an entry of the expected kind and leads to a point of
    stage at least [k]. *)
Ltac stage_step HI Hadv :=
  advance_cases Hadv; try discriminate Hadv; simpl in HI;
  repeat match goal with
         | E : negb _ = _ |- _ =>
             apply (f_equal negb) in E; rewrite negb_involutive in E; simpl in E
         | E : terminal _ = _ |- _ => rewrite E in HI
         end;
  try lia;
  injection Hadv as <- <-; simpl;
  (split; [split; [reflexivity|discriminate]|]);
  auto; try lia;
  repeat match goal with
         | |- context [if ?b then _ else _] => destruct b
         end; try lia; auto.

Section Poll_loops.

Variable env : environment.

(** Once a loop is left, its status request and its sleep do not occur
    again. *)
Lemma left_import_loop n pt (s : state env) :
  2 <= stage pt ->
  Forall (fun e => is_import_poll e = false /\ e <> ESleep 5) (snd (walk env n pt s)).
Proof.
  apply (@walk_invariant env (fun pt => 2 <= stage pt)).
  clear. intros pt s a nxt HI Hadv. stage_step HI Hadv.
Qed.

Lemma left_mesh_loop n pt (s : state env) :
  4 <= stage pt ->
  Forall (fun e => is_mesh_poll e = false /\ e <> ESleep 30) (snd (walk env n pt s)).
Proof.
  apply (@walk_invariant env (fun pt => 4 <= stage pt)).
  clear. intros pt s a nxt HI Hadv. stage_step HI Hadv.
Qed.

Lemma left_run_loop n pt (s : state env) :
  6 <= stage pt ->
  Forall (fun e => is_run_poll e = false /\ e <> ESleep 60) (snd (walk env n pt s)).
Proof.
  apply (@walk_invariant env (fun pt => 6 <= stage pt)).
  clear. intros pt s a nxt HI Hadv. stage_step HI Hadv.
Qed.

(** The same from the line before the test of a loop, when the status
    about to be tested is terminal. *)
Lemma left_import_loop_59 n p r (s : state env) :
  terminal (GeometryImport.status r) = true ->
  Forall (fun e => is_import_poll e = false /\ e <> ESleep 5)
    (snd (walk env n (L59 p r) s)).
Proof.
  intros Hterm. destruct n as [|n]; [constructor|]. rewrite walk_S. simpl.
  constructor; [split; [reflexivity|discriminate]|].
  apply left_import_loop. simpl. rewrite Hterm. lia.
Qed.

Lemma left_run_loop_210 n p sid r (s : state env) :
  terminal (SimulationRun.status r) = true ->
  Forall (fun e => is_run_poll e = false /\ e <> ESleep 60)
    (snd (walk env n (L210 p sid r) s)).
Proof.
  intros Hterm. destruct n as [|n]; [constructor|]. rewrite walk_S. simpl.
  constructor; [split; [reflexivity|discriminate]|].
  apply left_run_loop. simpl. rewrite Hterm. lia.
Qed.

End Poll_loops.

(** [locate H] finds the point at which the entry singled out in
    [H : trace env fuel = pre ++ e :: post] was issued: it leaves the path
    to that point, the move made there and what is known of [post].
    [run_walk H] computes the first moves of a run in [H].
    [rest_of_run Hpost L] shows a property of [post] from lemma [L] about
    runs from the point reached. *)
Ltac locate H Hreach Hmove Hpost :=
  let pt := fresh "pt" in
  let s := fresh "s" in
  let nxt := fresh "nxt" in
  let Hadv := fresh "Hadv" in
  apply trace_split in H;
  destruct H as (pt & s & nxt & Hreach & Hadv & Hpost);
  pose proof Hadv as Hmove;
  advance_cases Hadv; try discriminate Hadv; same_entry Hadv; clear Hadv.

(** [backward Hreach Hmove] finds the last move of the path [Hreach] to a
    known point: it leaves the path to the point before and the move. *)
Ltac backward Hreach Hmove :=
  let E := fresh "E" in
  let tr' := fresh "pre" in
  let a := fresh "a" in
  let pt1 := fresh "pt" in
  let s1 := fresh "s" in
  let Hprev := fresh "Hreach" in
  let Hadv := fresh "Hadv" in
  apply reaches_last in Hreach;
  destruct Hreach as [(_ & E) | (tr' & a & pt1 & s1 & -> & Hprev & Hadv)];
  [ discriminate E
  | pose proof Hadv as Hmove;
    advance_cases Hadv; try discriminate Hadv; same_entry Hadv; clear Hadv ].

(** [unit_answers] replaces the answers of calls that return nothing by
    [tt]. *)
Ltac unit_answers :=
  repeat match goal with
         | u : ?T |- _ =>
             let T' := eval hnf in T in
             match T' with unit => destruct u end
         end.

Ltac run_walk H :=
  simpl in H;
  repeat
    (first
       [ match type of H with
         | context [terminal ?x] =>
             match goal with E : terminal x = _ |- _ => rewrite E in H end
         end
       | match type of H with
         | context [respond ?env ?c ?s] =>
             destruct (respond env c s) as [[? | ?] ?]
         end ];
     simpl in H).

Ltac rest_of_run Hpost L :=
  let E := fresh "E" in
  destruct Hpost as [-> | (? & ? & ? & E & ->)];
  [ constructor
  | injection E as <- <-; apply L; simpl;
    repeat match goal with
           | E : terminal _ = _ |- _ => rewrite E
           end; first [lia | reflexivity] ].

Ltac continue_with Hreach Hmove n :=
  let fuel' := fresh "fuel'" in
  let rest := fresh "rest" in
  let Ht := fresh "Ht" in
  destruct (reaches_extends n (reaches_snoc Hreach Hmove))
    as (fuel' & rest & Ht & _);
  rewrite <- app_assoc in Ht; run_walk Ht;
  repeat eexists; exact Ht.

Section Poll_windows.

Variable env : environment.

(** What follows a status answer of the mesh operation. *)
Lemma after_mesh_poll fuel pre p m r post :
  trace env fuel = pre ++ ECall (GetMeshOperation p m) (Returns r) :: post ->
  if terminal (MeshOperation.status r) then
    Forall (fun e => is_mesh_poll e = false /\ e <> ESleep 30) post /\
    exists fuel' sid a rest,
      trace env fuel' =
      pre ++ ECall (GetMeshOperation p m) (Returns r)
          :: ECall (GetSimulation p sid) a :: rest
  else
    exists fuel' a rest,
      trace env fuel' =
      pre ++ ECall (GetMeshOperation p m) (Returns r)
          :: ESleep 30
          :: ECall (GetMeshOperation p (MeshOperation.mesh_operation_id r)) a
          :: rest.
Proof.
  intros H. locate H Hreach Hmove Hpost.
  destruct (terminal (MeshOperation.status r)) eqn:Hterm.
  - split; [rest_of_run Hpost left_mesh_loop|].
    continue_with Hreach Hmove 1.
  - continue_with Hreach Hmove 2.
Qed.

(** What follows the answer to the import submission, whose status is
    the first one the import loop tests. *)
Lemma after_import_submission fuel pre p req r post :
  trace env fuel = pre ++ ECall (ImportGeometry p req) (Returns r) :: post ->
  if terminal (GeometryImport.status r) then
    Forall (fun e => is_import_poll e = false /\ e <> ESleep 5) post /\
    exists fuel' a rest,
      trace env fuel' =
      pre ++ ECall (ImportGeometry p req) (Returns r)
          :: EPrint "Importing geometry..."
          :: ECall (GetGeometryMappings p (GeometryImport.geometry_id r) "region" 1) a
          :: rest
  else
    exists fuel' a rest,
      trace env fuel' =
      pre ++ ECall (ImportGeometry p req) (Returns r)
          :: EPrint "Importing geometry..."
          :: ESleep 5
          :: ECall (GetGeometryImport p (GeometryImport.geometry_import_id r)) a
          :: rest.
Proof.
  intros H. locate H Hreach Hmove Hpost.
  destruct (terminal (GeometryImport.status r)) eqn:Hterm.
  - split; [rest_of_run Hpost left_import_loop_59|].
    continue_with Hreach Hmove 2.
  - continue_with Hreach Hmove 3.
Qed.

(** What follows a status answer of the geometry import. *)
Lemma after_import_poll fuel pre p g r post :
  trace env fuel = pre ++ ECall (GetGeometryImport p g) (Returns r) :: post ->
  if terminal (GeometryImport.status r) then
    Forall (fun e => is_import_poll e = false /\ e <> ESleep 5) post /\
    exists fuel' a rest,
      trace env fuel' =
      pre ++ ECall (GetGeometryImport p g) (Returns r)
          :: ECall (GetGeometryMappings p (GeometryImport.geometry_id r) "region" 1) a
          :: rest
  else
    exists fuel' a rest,
      trace env fuel' =
      pre ++ ECall (GetGeometryImport p g) (Returns r)
          :: ESleep 5
          :: ECall (GetGeometryImport p (GeometryImport.geometry_import_id r)) a
          :: rest.
Proof.
  intros H. locate H Hreach Hmove Hpost.
  destruct (terminal (GeometryImport.status r)) eqn:Hterm.
  - split; [rest_of_run Hpost left_import_loop|].
    continue_with Hreach Hmove 1.
  - continue_with Hreach Hmove 2.
Qed.

(** What follows a status answer of the simulation run. *)
Lemma after_run_poll fuel pre p sid rid r post :
  trace env fuel = pre ++ ECall (GetSimulationRun p sid rid) (Returns r) :: post ->
  if terminal (SimulationRun.status r) then
    Forall (fun e => is_run_poll e = false /\ e <> ESleep 60) post /\
    exists fuel',
      run_script env fuel' =
      (Finished,
       pre ++ [ECall (GetSimulationRun p sid rid) (Returns r);
               EPrint (status_line r);
               EPrint complete_message;
               EPrint (results_message p)])
  else
    exists fuel' a rest,
      trace env fuel' =
      pre ++ ECall (GetSimulationRun p sid rid) (Returns r)
          :: EPrint (status_line r)
          :: ESleep 60
          :: ECall (GetSimulationRun p sid (SimulationRun.run_id r)) a
          :: rest.
Proof.
  intros H. locate H Hreach Hmove Hpost.
  destruct (terminal (SimulationRun.status r)) eqn:Hterm.
  - split; [rest_of_run Hpost left_run_loop_210|].
    destruct (reaches_extends 4 (reaches_snoc Hreach Hmove))
      as (fuel' & rest & _ & Ht).
    rewrite <- app_assoc in Ht. run_walk Ht.
    exists fuel'. apply Ht. discriminate.
  - continue_with Hreach Hmove 3.
Qed.

End Poll_windows.

Lemma terminal_iff status :
  terminal status = true <-> status = "FINISHED" \/ status = "FAILED".
Proof.
  unfold terminal. rewrite orb_true_iff, !String.eqb_eq. reflexivity.
Qed.

(** C2. In every run, each poll loop is left exactly when the status it
    has just observed is FINISHED or FAILED.  After a terminal status the
    statement that follows the loop is executed and neither the status
    request nor the sleep of that loop occurs again; after any other
    status the loop sleeps and requests the status again.  The import
    loop first tests the status carried by the answer to the import
    submission. *)
Theorem poll_loops_stop_exactly_on_terminal (env : environment) (fuel : nat) :
  (forall status,
      terminal status = true <-> status = "FINISHED" \/ status = "FAILED") /\
  (forall pre p req r post,
      trace env fuel = pre ++ ECall (ImportGeometry p req) (Returns r) :: post ->
      if terminal (GeometryImport.status r) then
        Forall (fun e => is_import_poll e = false /\ e <> ESleep 5) post /\
        exists fuel' a rest,
          trace env fuel' =
          pre ++ ECall (ImportGeometry p req) (Returns r)
              :: EPrint "Importing geometry..."
              :: ECall (GetGeometryMappings p (GeometryImport.geometry_id r) "region" 1) a
              :: rest
      else
        exists fuel' a rest,
          trace env fuel' =
          pre ++ ECall (ImportGeometry p req) (Returns r)
              :: EPrint "Importing geometry..."
              :: ESleep 5
              :: ECall (GetGeometryImport p (GeometryImport.geometry_import_id r)) a
              :: rest) /\
  (forall pre p g r post,
      trace env fuel = pre ++ ECall (GetGeometryImport p g) (Returns r) :: post ->
      if terminal (GeometryImport.status r) then
        Forall (fun e => is_import_poll e = false /\ e <> ESleep 5) post /\
        exists fuel' a rest,
          trace env fuel' =
          pre ++ ECall (GetGeometryImport p g) (Returns r)
              :: ECall (GetGeometryMappings p (GeometryImport.geometry_id r) "region" 1) a
              :: rest
      else
        exists fuel' a rest,
          trace env fuel' =
          pre ++ ECall (GetGeometryImport p g) (Returns r)
              :: ESleep 5
              :: ECall (GetGeometryImport p (GeometryImport.geometry_import_id r)) a
              :: rest) /\
  (forall pre p m r post,
      trace env fuel = pre ++ ECall (GetMeshOperation p m) (Returns r) :: post ->
      if terminal (MeshOperation.status r) then
        Forall (fun e => is_mesh_poll e = false /\ e <> ESleep 30) post /\
        exists fuel' sid a rest,
          trace env fuel' =
          pre ++ ECall (GetMeshOperation p m) (Returns r)
              :: ECall (GetSimulation p sid) a :: rest
      else
        exists fuel' a rest,
          trace env fuel' =
          pre ++ ECall (GetMeshOperation p m) (Returns r)
              :: ESleep 30
              :: ECall (GetMeshOperation p (MeshOperation.mesh_operation_id r)) a
              :: rest) /\
  (forall pre p sid rid r post,
      trace env fuel = pre ++ ECall (GetSimulationRun p sid rid) (Returns r) :: post ->
      if terminal (SimulationRun.status r) then
        Forall (fun e => is_run_poll e = false /\ e <> ESleep 60) post /\
        exists fuel',
          run_script env fuel' =
          (Finished,
           pre ++ [ECall (GetSimulationRun p sid rid) (Returns r);
                   EPrint (status_line r);
                   EPrint complete_message;
                   EPrint (results_message p)])
      else
        exists fuel' a rest,
          trace env fuel' =
          pre ++ ECall (GetSimulationRun p sid rid) (Returns r)
              :: EPrint (status_line r)
              :: ESleep 60
              :: ECall (GetSimulationRun p sid (SimulationRun.run_id r)) a
              :: rest).
Proof.
  split; [exact terminal_iff|].
  split; [intros; eapply after_import_submission; eassumption|].
  split; [intros; eapply after_import_poll; eassumption|].
  split; [intros; eapply after_mesh_poll; eassumption|].
  intros; eapply after_run_poll; eassumption.
Qed.

(** ** The body name (lines 69-72 and 107) *)

Section Body_name.

Variable env : environment.

Lemma material_entities_spec geometry_id body_name :
  material_entities (simulation_spec geometry_id body_name)
  = Some (VList [VStr body_name]).
Proof. reflexivity. Qed.

(** C3. The simulation is created right after the geometry mappings of
    class [region] have been fetched, and the entities of the topological
    reference of its material are ["region1"] when the list of bodies is
    empty and the name of the first body otherwise. *)
Theorem body_name_defaults_to_region1 (fuel : nat) :
  (forall pre p spec a post,
      trace env fuel = pre ++ ECall (CreateSimulation p spec) a :: post ->
      exists pre' g b,
        pre = pre' ++ [ECall (GetGeometryMappings p g "region" 1) (Returns b);
                       EPrint "Setting up simulation..."] /\
        material_entities spec =
        Some (VList [VStr match GeometryMappings.embedded b with
                          | [] => "region1"
                          | body :: _ => GeometryMapping.name body
                          end])) /\
  (forall pre p g c l b post,
      trace env fuel = pre ++ ECall (GetGeometryMappings p g c l) (Returns b) :: post ->
      exists fuel' a rest,
        trace env fuel' =
        pre ++ ECall (GetGeometryMappings p g c l) (Returns b)
            :: EPrint "Setting up simulation..."
            :: ECall (CreateSimulation p
                        (simulation_spec g
                           match GeometryMappings.embedded b with
                           | [] => "region1"
                           | body :: _ => GeometryMapping.name body
                           end)) a
            :: rest).
Proof.
  split.
  - intros pre p spec a post H. locate H Hreach Hmove Hpost.
    all: backward Hreach Hmove1; backward Hreach0 Hmove2.
    all: do 3 eexists; split; [rewrite <- app_assoc; reflexivity|].
    all: apply material_entities_spec.
  - intros pre p g c l b post H. locate H Hreach Hmove Hpost.
    continue_with Hreach Hmove 2.
Qed.

End Body_name.

(** ** Attaching the mesh (lines 196-198) *)

Lemma assoc_get_set_same name v l :
  assoc_get name (assoc_set name v l) = Some v.
Proof.
  induction l as [|[n x] l IH]; simpl.
  - rewrite String.eqb_refl. reflexivity.
  - destruct (String.eqb n name) eqn:E; simpl.
    + rewrite String.eqb_refl. reflexivity.
    + rewrite E. exact IH.
Qed.

Lemma assoc_get_set_other name other v l :
  other <> name ->
  assoc_get other (assoc_set name v l) = assoc_get other l.
Proof.
  intros Hne. induction l as [|[n x] l IH]; simpl.
  - destruct (String.eqb name other) eqn:E; [|reflexivity].
    apply String.eqb_eq in E. congruence.
  - destruct (String.eqb n name) eqn:E; simpl.
    + apply String.eqb_eq in E. subst n.
      destruct (String.eqb name other) eqn:E'; [|reflexivity].
      apply String.eqb_eq in E'. congruence.
    + rewrite IH. reflexivity.
Qed.

Lemma getattr_setattr_same o name v :
  getattr (setattr o name v) name = Some v.
Proof. apply assoc_get_set_same. Qed.

Lemma getattr_setattr_other o name other v :
  other <> name -> getattr (setattr o name v) other = getattr o other.
Proof. apply assoc_get_set_other. Qed.

Section Mesh_attachment.

Variable env : environment.

(** C4. Whenever a simulation run is created, and whenever it is started,
    the trace up to there ends with: the status answer of the mesh
    operation that ended the mesh loop, the simulation as fetched, the
    update request that carries this simulation with [mesh_id] set to the
    mesh ID of that mesh operation, and its successful answer. *)
Theorem mesh_attached_before_run (fuel : nat) :
  (forall pre p sid body a post,
      trace env fuel = pre ++ ECall (CreateSimulationRun p sid body) a :: post ->
      exists pre' m mo sim,
        pre = pre' ++
              [ECall (GetMeshOperation p m) (Returns mo);
               ECall (GetSimulation p sid) (Returns sim);
               ECall (UpdateSimulation p sid
                        (setattr sim "mesh_id" (VStr (MeshOperation.mesh_id mo))))
                 (Returns tt);
               EPrint "Running simulation..."] /\
        terminal (MeshOperation.status mo) = true /\
        getattr (setattr sim "mesh_id" (VStr (MeshOperation.mesh_id mo))) "mesh_id"
        = Some (VStr (MeshOperation.mesh_id mo))) /\
  (forall pre p sid rid a post,
      trace env fuel = pre ++ ECall (StartSimulationRun p sid rid) a :: post ->
      exists pre' m mo sim run,
        pre = pre' ++
              [ECall (GetMeshOperation p m) (Returns mo);
               ECall (GetSimulation p sid) (Returns sim);
               ECall (UpdateSimulation p sid
                        (setattr sim "mesh_id" (VStr (MeshOperation.mesh_id mo))))
                 (Returns tt);
               EPrint "Running simulation...";
               ECall (CreateSimulationRun p sid run_body) (Returns run)] /\
        rid = SimulationRun.run_id run /\
        terminal (MeshOperation.status mo) = true).
Proof.
  split.
  - intros pre p sid body a post H. locate H Hreach Hmove Hpost.
    all: backward Hreach Hmove1; backward Hreach0 Hmove2;
      backward Hreach Hmove3; backward Hreach0 Hmove4.
    all: rewrite <- !app_assoc; simpl app; unit_answers.
    all: do 4 eexists; split; [reflexivity|].
    all: split; [assumption|apply getattr_setattr_same].
  - intros pre p sid rid a post H. locate H Hreach Hmove Hpost.
    all: backward Hreach Hmove0; backward Hreach0 Hmove1;
      backward Hreach Hmove2; backward Hreach0 Hmove3; backward Hreach Hmove4.
    all: rewrite <- !app_assoc; simpl app; unit_answers.
    all: do 5 eexists; split; [reflexivity|].
    all: split; [reflexivity|assumption].
Qed.

End Mesh_attachment.

Section Simulation_parameters.

Variable env : environment.

(** From line 169 on no simulation is created, and from line 201 on none
    is updated. *)
Lemma created_once n pt (s : state env) :
  169 <= line pt ->
  Forall (fun e => is_create_simulation e = false) (snd (walk env n pt s)).
Proof.
  apply (@walk_invariant env (fun pt => 169 <= line pt)).
  clear. intros pt s a nxt HI Hadv.
  advance_cases Hadv; try discriminate Hadv; simpl in HI; try lia;
    injection Hadv as <- <-; simpl; split; auto; lia.
Qed.

Lemma updated_once n pt (s : state env) :
  201 <= line pt ->
  Forall (fun e => is_update_simulation e = false) (snd (walk env n pt s)).
Proof.
  apply (@walk_invariant env (fun pt => 201 <= line pt)).
  clear. intros pt s a nxt HI Hadv.
  advance_cases Hadv; try discriminate Hadv; simpl in HI; try lia;
    injection Hadv as <- <-; simpl; split; auto; lia.
Qed.

(** C8. The simulation parameters are sent once, when the simulation is
    created.  The simulation sent in the update request is the one just
    fetched with [mesh_id] set to the mesh ID of the mesh operation: it
    has the same class, and every attribute other than [mesh_id] reads as
    in the fetched simulation.  No other update is sent. *)
Theorem only_mesh_id_changes (fuel : nat) :
  (forall pre p spec a post,
      trace env fuel = pre ++ ECall (CreateSimulation p spec) a :: post ->
      Forall (fun e => is_create_simulation e = false) post) /\
  (forall pre p sid sent a post,
      trace env fuel = pre ++ ECall (UpdateSimulation p sid sent) a :: post ->
      Forall (fun e => is_update_simulation e = false) post /\
      exists pre' m mo sim,
        pre = pre' ++ [ECall (GetMeshOperation p m) (Returns mo);
                       ECall (GetSimulation p sid) (Returns sim)] /\
        cls sent = cls sim /\
        getattr sent "mesh_id" = Some (VStr (MeshOperation.mesh_id mo)) /\
        forall name, name <> "mesh_id" -> getattr sent name = getattr sim name).
Proof.
  split.
  - intros pre p spec a post H. locate H Hreach Hmove Hpost.
    + rest_of_run Hpost created_once.
    + destruct Hpost as [-> | (? & ? & ? & E & _)]; [constructor|discriminate E].
  - intros pre p sid sent a post H. locate H Hreach Hmove Hpost.
    all: split;
      [ first [ rest_of_run Hpost updated_once
              | destruct Hpost as [-> | (? & ? & ? & E & _)];
                [constructor|discriminate E] ] |].
    all: backward Hreach Hmove1; backward Hreach0 Hmove2.
    all: rewrite <- !app_assoc; simpl app.
    all: do 4 eexists; split; [reflexivity|].
    all: split; [reflexivity|].
    all: split; [apply getattr_setattr_same|].
    all: intros name Hname; apply getattr_setattr_other; exact Hname.
Qed.

End Simulation_parameters.

(** ** FAILED and FINISHED (lines 60, 191, 211) *)

Section Failed_status.

Variable env : environment.

Lemma terminal_of status :
  status = "FAILED" \/ status = "FINISHED" -> terminal status = true.
Proof. intros [-> | ->]; reflexivity. Qed.

(** C5. A status FAILED is handled as FINISHED is: the loop that observes
    it is left and the next statement of the script is executed.  After
    a FAILED run the script prints the status line, the completion
    message and the results URL and runs to its end.  A run of the script
    only dies of an exception raised by a call; the script raises none of
    its own. *)
Theorem failed_is_handled_like_finished (fuel : nat) :
  (forall exn,
      outcome_of env fuel = Uncaught exn ->
      exists pre c, trace env fuel = pre ++ [ECall c (Raises exn)]) /\
  (forall pre p req r post,
      trace env fuel = pre ++ ECall (ImportGeometry p req) (Returns r) :: post ->
      GeometryImport.status r = "FAILED" \/ GeometryImport.status r = "FINISHED" ->
      exists fuel' a rest,
        trace env fuel' =
        pre ++ ECall (ImportGeometry p req) (Returns r)
            :: EPrint "Importing geometry..."
            :: ECall (GetGeometryMappings p (GeometryImport.geometry_id r) "region" 1) a
            :: rest) /\
  (forall pre p g r post,
      trace env fuel = pre ++ ECall (GetGeometryImport p g) (Returns r) :: post ->
      GeometryImport.status r = "FAILED" \/ GeometryImport.status r = "FINISHED" ->
      exists fuel' a rest,
        trace env fuel' =
        pre ++ ECall (GetGeometryImport p g) (Returns r)
            :: ECall (GetGeometryMappings p (GeometryImport.geometry_id r) "region" 1) a
            :: rest) /\
  (forall pre p m r post,
      trace env fuel = pre ++ ECall (GetMeshOperation p m) (Returns r) :: post ->
      MeshOperation.status r = "FAILED" \/ MeshOperation.status r = "FINISHED" ->
      exists fuel' sid a rest,
        trace env fuel' =
        pre ++ ECall (GetMeshOperation p m) (Returns r)
            :: ECall (GetSimulation p sid) a :: rest) /\
  (forall pre p sid rid r post,
      trace env fuel = pre ++ ECall (GetSimulationRun p sid rid) (Returns r) :: post ->
      SimulationRun.status r = "FAILED" \/ SimulationRun.status r = "FINISHED" ->
      exists fuel',
        run_script env fuel' =
        (Finished,
         pre ++ [ECall (GetSimulationRun p sid rid) (Returns r);
                 EPrint (status_line r);
                 EPrint complete_message;
                 EPrint (results_message p)])).
Proof.
  split.
  { intros exn. unfold outcome_of, trace.
    destruct (run_script_walk env fuel) as (n & _ & _ & ->).
    apply walk_uncaught. }
  split.
  { intros pre p req r post H Hst. apply after_import_submission in H.
    rewrite (terminal_of Hst) in H. apply H. }
  split.
  { intros pre p g r post H Hst. apply after_import_poll in H.
    rewrite (terminal_of Hst) in H. apply H. }
  split.
  { intros pre p m r post H Hst. apply after_mesh_poll in H.
    rewrite (terminal_of Hst) in H. apply H. }
  intros pre p sid rid r post H Hst. apply after_run_poll in H.
  rewrite (terminal_of Hst) in H. apply H.
Qed.

End Failed_status.

(** ** The status line (line 210) *)

Section Status_line.

Variable env : environment.

(** C6. The entry that follows a status answer of the run is the print of
    [Status: <status> - Progress: <percentage>%], the percentage being
    the progress times 100 in fixed notation without decimals; and every
    line the script prints is one of its fixed messages, the results URL,
    or the status line of the status answer just received.  A progress of
    0, 0.5 and 1 is rendered as 0%, 50% and 100%. *)
Theorem run_status_line_format (fuel : nat) :
  (forall pre p sid rid r e post,
      trace env fuel
      = pre ++ ECall (GetSimulationRun p sid rid) (Returns r) :: e :: post ->
      e = EPrint ("Status: " ++ SimulationRun.status r ++ " - Progress: "
                  ++ format_fixed0 (SimulationRun.progress r * 100)%float
                  ++ "%")%string) /\
  (forall pre text post,
      trace env fuel = pre ++ EPrint text :: post ->
      In text fixed_messages \/
      (exists p, text = results_message p) \/
      (exists pre' p sid rid r,
          pre = pre' ++ [ECall (GetSimulationRun p sid rid) (Returns r)] /\
          text = ("Status: " ++ SimulationRun.status r ++ " - Progress: "
                  ++ format_fixed0 (SimulationRun.progress r * 100)%float
                  ++ "%")%string)) /\
  (format_percent0 0 = "0%" /\ format_percent0 0.5 = "50%" /\
   format_percent0 1 = "100%").
Proof.
  split; [|split].
  - intros pre p sid rid r e post H. locate H Hreach Hmove Hpost.
    destruct Hpost as [E | (pt' & s' & m & E & Hpost)]; [discriminate E|].
    injection E as <- <-. destruct m as [|m]; [discriminate Hpost|].
    simpl in Hpost. injection Hpost as -> _. reflexivity.
  - intros pre text post H. locate H Hreach Hmove Hpost.
    all: try (left; simpl; tauto).
    + right. right. backward Hreach Hmove1.
      do 5 eexists. split; reflexivity.
    + right. left. eexists. reflexivity.
  - repeat split; vm_compute; reflexivity.
Qed.

End Status_line.

(** ** The sleep intervals (lines 61, 193, 213) *)

Section Sleep_intervals.

Variable env : environment.

Lemma negb_true_false b : negb b = true -> b = false.
Proof. destruct b; [discriminate|reflexivity]. Qed.

(** Every sleep of the script belongs to one of the three loops: it
    follows a status that is not terminal, lasts the interval of that loop
    and is followed by the next status request. *)
Lemma sleep_context fuel pre secs post :
  trace env fuel = pre ++ ESleep secs :: post ->
  (secs = 5%Z /\
   exists p r,
     terminal (GeometryImport.status r) = false /\
     ((exists pre' req,
          pre = pre' ++ [ECall (ImportGeometry p req) (Returns r);
                         EPrint "Importing geometry..."]) \/
      (exists pre' g,
          pre = pre' ++ [ECall (GetGeometryImport p g) (Returns r)])) /\
     exists fuel' a rest,
       trace env fuel' =
       pre ++ ESleep 5
           :: ECall (GetGeometryImport p (GeometryImport.geometry_import_id r)) a
           :: rest) \/
  (secs = 30%Z /\
   exists pre' p m r,
     terminal (MeshOperation.status r) = false /\
     pre = pre' ++ [ECall (GetMeshOperation p m) (Returns r)] /\
     exists fuel' a rest,
       trace env fuel' =
       pre ++ ESleep 30
           :: ECall (GetMeshOperation p (MeshOperation.mesh_operation_id r)) a
           :: rest) \/
  (secs = 60%Z /\
   exists pre' p sid rid r,
     terminal (SimulationRun.status r) = false /\
     pre = pre' ++ [ECall (GetSimulationRun p sid rid) (Returns r);
                    EPrint (status_line r)] /\
     exists fuel' a rest,
       trace env fuel' =
       pre ++ ESleep 60
           :: ECall (GetSimulationRun p sid (SimulationRun.run_id r)) a
           :: rest).
Proof.
  intros H. locate H Hreach Hmove Hpost.
  - left. split; [reflexivity|].
    exists project_id, geometry_import.
    split; [apply negb_true_false; assumption|].
    split; [|continue_with Hreach Hmove 1].
    backward Hreach Hmove1.
    + left. backward Hreach0 Hmove2.
      rewrite <- app_assoc. simpl app. eauto.
    + right. eauto.
  - right. left. split; [reflexivity|].
    assert (Hnext : exists fuel' a rest,
               trace env fuel' =
               pre ++ ESleep 30
                   :: ECall (GetMeshOperation project_id
                               (MeshOperation.mesh_operation_id mesh_op)) a
                   :: rest) by continue_with Hreach Hmove 1.
    backward Hreach Hmove1.
    do 4 eexists. split; [eassumption|]. split; [reflexivity|exact Hnext].
  - right. right. split; [reflexivity|].
    assert (Hnext : exists fuel' a rest,
               trace env fuel' =
               pre ++ ESleep 60
                   :: ECall (GetSimulationRun project_id simulation_id
                               (SimulationRun.run_id run)) a
                   :: rest) by continue_with Hreach Hmove 1.
    backward Hreach Hmove1. backward Hreach0 Hmove2.
    rewrite <- app_assoc in *. simpl app in *.
    do 5 eexists. split; [eassumption|]. split; [reflexivity|exact Hnext].
Qed.

(** C7. Every sleep of the script is the sleep of one of the three poll
    loops: it comes after a status that is not terminal, lasts 5 seconds
    in the import loop, 30 in the mesh loop and 60 in the run loop, and is
    followed by the next status request.  Conversely, after every status
    that is not terminal, however many came before, the loop sleeps for
    its interval and requests the status again. *)
Theorem fixed_sleep_intervals (fuel : nat) :
  (forall pre secs post,
      trace env fuel = pre ++ ESleep secs :: post ->
      (secs = 5%Z /\
       exists p r,
         terminal (GeometryImport.status r) = false /\
         ((exists pre' req,
              pre = pre' ++ [ECall (ImportGeometry p req) (Returns r);
                             EPrint "Importing geometry..."]) \/
          (exists pre' g,
              pre = pre' ++ [ECall (GetGeometryImport p g) (Returns r)])) /\
         exists fuel' a rest,
           trace env fuel' =
           pre ++ ESleep 5
               :: ECall (GetGeometryImport p (GeometryImport.geometry_import_id r)) a
               :: rest) \/
      (secs = 30%Z /\
       exists pre' p m r,
         terminal (MeshOperation.status r) = false /\
         pre = pre' ++ [ECall (GetMeshOperation p m) (Returns r)] /\
         exists fuel' a rest,
           trace env fuel' =
           pre ++ ESleep 30
               :: ECall (GetMeshOperation p (MeshOperation.mesh_operation_id r)) a
               :: rest) \/
      (secs = 60%Z /\
       exists pre' p sid rid r,
         terminal (SimulationRun.status r) = false /\
         pre = pre' ++ [ECall (GetSimulationRun p sid rid) (Returns r);
                        EPrint (status_line r)] /\
         exists fuel' a rest,
           trace env fuel' =
           pre ++ ESleep 60
               :: ECall (GetSimulationRun p sid (SimulationRun.run_id r)) a
               :: rest)) /\
  (forall pre p req r post,
      trace env fuel = pre ++ ECall (ImportGeometry p req) (Returns r) :: post ->
      terminal (GeometryImport.status r) = false ->
      exists fuel' a rest,
        trace env fuel' =
        pre ++ ECall (ImportGeometry p req) (Returns r)
            :: EPrint "Importing geometry..."
            :: ESleep 5
            :: ECall (GetGeometryImport p (GeometryImport.geometry_import_id r)) a
            :: rest) /\
  (forall pre p g r post,
      trace env fuel = pre ++ ECall (GetGeometryImport p g) (Returns r) :: post ->
      terminal (GeometryImport.status r) = false ->
      exists fuel' a rest,
        trace env fuel' =
        pre ++ ECall (GetGeometryImport p g) (Returns r)
            :: ESleep 5
            :: ECall (GetGeometryImport p (GeometryImport.geometry_import_id r)) a
            :: rest) /\
  (forall pre p m r post,
      trace env fuel = pre ++ ECall (GetMeshOperation p m) (Returns r) :: post ->
      terminal (MeshOperation.status r) = false ->
      exists fuel' a rest,
        trace env fuel' =
        pre ++ ECall (GetMeshOperation p m) (Returns r)
            :: ESleep 30
            :: ECall (GetMeshOperation p (MeshOperation.mesh_operation_id r)) a
            :: rest) /\
  (forall pre p sid rid r post,
      trace env fuel = pre ++ ECall (GetSimulationRun p sid rid) (Returns r) :: post ->
      terminal (SimulationRun.status r) = false ->
      exists fuel' a rest,
        trace env fuel' =
        pre ++ ECall (GetSimulationRun p sid rid) (Returns r)
            :: EPrint (status_line r)
            :: ESleep 60
            :: ECall (GetSimulationRun p sid (SimulationRun.run_id r)) a
            :: rest).
Proof.
  split; [intros pre secs post H; exact (sleep_context _ _ _ _ H)|].
  split.
  { intros pre p req r post H Hst. apply after_import_submission in H.
    rewrite Hst in H. exact H. }
  split.
  { intros pre p g r post H Hst. apply after_import_poll in H.
    rewrite Hst in H. exact H. }
  split.
  { intros pre p m r post H Hst. apply after_mesh_poll in H.
    rewrite Hst in H. exact H. }
  intros pre p sid rid r post H Hst. apply after_run_poll in H.
  rewrite Hst in H. exact H.
Qed.

End Sleep_intervals.

(** ** The first status request of each loop (lines 60, 190, 209) *)

Section First_request.

Variable env : environment.

(** The stage never decreases, and the status of the import is only
    requested inside the import loop. *)
Lemma advance_stage pt (s : state env) a pt1 s1 :
  advance env pt s = Some (a, Some (pt1, s1)) ->
  stage pt <= stage pt1 /\ (is_import_poll a = true -> 1 <= stage pt).
Proof.
  intros Hadv.
  advance_cases Hadv; try discriminate Hadv;
    repeat match goal with
           | E : negb _ = _ |- _ =>
               apply (f_equal negb) in E; rewrite negb_involutive in E; simpl in E
           end;
    injection Hadv as <- <- <-; simpl;
    repeat match goal with
           | E : terminal _ = _ |- _ => rewrite E
           end;
    (split; [|try discriminate; lia]);
    repeat match goal with
           | |- context [if ?b then _ else _] => destruct b
           end; lia.
Qed.

Lemma reaches_stage pt s tr pt' (s' : state env) :
  reaches env pt s tr pt' s' -> stage pt <= stage pt'.
Proof.
  induction 1 as [|pt s a pa sa tr pb sb Hadv Hr IH]; [lia|].
  apply advance_stage in Hadv. lia.
Qed.

Lemma no_poll_before_loop pt s tr pt' (s' : state env) :
  reaches env pt s tr pt' s' -> stage pt' = 0 ->
  Forall (fun e => is_import_poll e = false) tr.
Proof.
  induction 1 as [|pt s a pa sa tr pb sb Hadv Hr IH]; intros Hst; constructor.
  - apply advance_stage in Hadv. apply reaches_stage in Hr.
    destruct (is_import_poll a); [|reflexivity].
    destruct Hadv as [H1 H2]. specialize (H2 eq_refl). lia.
  - apply IH. assumption.
Qed.

(** C9. The mesh loop and the run loop request the status as their first
    action: once the mesh operation, or the run, has been started, the
    status request follows, whatever status the answer to its creation
    carried.  The import loop tests the status carried by the answer to
    the import submission first: when that status is terminal, no run of
    the script contains a status request for the import. *)
Theorem first_status_request (fuel : nat) :
  (forall pre p m sid u post,
      trace env fuel = pre ++ ECall (StartMeshOperation p m sid) (Returns u) :: post ->
      exists pre' op mo,
        pre = pre' ++ [ECall (CreateMeshOperation p op) (Returns mo)] /\
        m = MeshOperation.mesh_operation_id mo /\
        exists fuel' a rest,
          trace env fuel' =
          pre ++ ECall (StartMeshOperation p m sid) (Returns u)
              :: EPrint "Meshing..."
              :: ECall (GetMeshOperation p m) a
              :: rest) /\
  (forall pre p sid rid u post,
      trace env fuel = pre ++ ECall (StartSimulationRun p sid rid) (Returns u) :: post ->
      exists pre' body run,
        pre = pre' ++ [ECall (CreateSimulationRun p sid body) (Returns run)] /\
        rid = SimulationRun.run_id run /\
        exists fuel' a rest,
          trace env fuel' =
          pre ++ ECall (StartSimulationRun p sid rid) (Returns u)
              :: ECall (GetSimulationRun p sid rid) a
              :: rest) /\
  (forall pre p req r post,
      trace env fuel = pre ++ ECall (ImportGeometry p req) (Returns r) :: post ->
      terminal (GeometryImport.status r) = true ->
      Forall (fun e => is_import_poll e = false) (trace env fuel)).
Proof.
  split; [|split].
  - intros pre p m sid u post H. locate H Hreach Hmove Hpost.
    assert (Hnext : exists fuel' a rest,
               trace env fuel' =
               pre ++ ECall (StartMeshOperation p
                               (MeshOperation.mesh_operation_id mesh_op) sid)
                        (Returns u)
                   :: EPrint "Meshing..."
                   :: ECall (GetMeshOperation p
                               (MeshOperation.mesh_operation_id mesh_op)) a
                   :: rest) by continue_with Hreach Hmove 2.
    backward Hreach Hmove1.
    do 3 eexists. split; [reflexivity|]. split; [reflexivity|exact Hnext].
  - intros pre p sid rid u post H. locate H Hreach Hmove Hpost.
    assert (Hnext : exists fuel' a rest,
               trace env fuel' =
               pre ++ ECall (StartSimulationRun p sid (SimulationRun.run_id run))
                        (Returns u)
                   :: ECall (GetSimulationRun p sid (SimulationRun.run_id run)) a
                   :: rest) by continue_with Hreach Hmove 1.
    backward Hreach Hmove1.
    do 3 eexists. split; [reflexivity|]. split; [reflexivity|exact Hnext].
  - intros pre p req r post H Hterm. rewrite H.
    pose proof H as Hafter. apply after_import_submission in Hafter.
    rewrite Hterm in Hafter. destruct Hafter as [Hpost _].
    locate H Hreach Hmove Hpost'.
    apply Forall_app. split.
    + eapply no_poll_before_loop; [exact Hreach|reflexivity].
    + constructor; [reflexivity|].
      eapply Forall_impl; [|exact Hpost]. intros e [He _]. exact He.
Qed.

End First_request.

(** ** The status line and the end of the run loop (lines 209-216) *)

Section Run_loop_lines.

Variable env : environment.

(** C10. In every iteration of the run loop the status answer is followed
    by exactly one status line, printed before the status is tested: what
    comes after the line is the sleep of the loop when the status is not
    terminal, and the completion message when it is.  The completion
    message is only printed right after the status line of a terminal
    status, and is followed by the results URL. *)
Theorem status_line_before_test (fuel : nat) :
  (forall pre p sid rid r post,
      trace env fuel = pre ++ ECall (GetSimulationRun p sid rid) (Returns r) :: post ->
      (post = [] \/
       exists post1,
         post = EPrint (status_line r) :: post1 /\
         (post1 = [] \/
          exists post2,
            post1 = (if terminal (SimulationRun.status r)
                     then EPrint complete_message else ESleep 60) :: post2)) /\
      if terminal (SimulationRun.status r) then
        exists fuel',
          run_script env fuel' =
          (Finished,
           pre ++ [ECall (GetSimulationRun p sid rid) (Returns r);
                   EPrint (status_line r);
                   EPrint complete_message;
                   EPrint (results_message p)])
      else
        exists fuel' a rest,
          trace env fuel' =
          pre ++ ECall (GetSimulationRun p sid rid) (Returns r)
              :: EPrint (status_line r)
              :: ESleep 60
              :: ECall (GetSimulationRun p sid (SimulationRun.run_id r)) a
              :: rest) /\
  (forall pre post,
      trace env fuel = pre ++ EPrint complete_message :: post ->
      exists pre' p sid rid r,
        pre = pre' ++ [ECall (GetSimulationRun p sid rid) (Returns r);
                       EPrint (status_line r)] /\
        terminal (SimulationRun.status r) = true /\
        (post = [] \/ post = [EPrint (results_message p)])).
Proof.
  split.
  - intros pre p sid rid r post H. split.
    + locate H Hreach Hmove Hpost.
      destruct Hpost as [-> | (pt' & s' & m & E & ->)]; [left; reflexivity|].
      injection E as <- <-. destruct m as [|m]; [left; reflexivity|].
      right. simpl. eexists. split; [reflexivity|].
      destruct m as [|m]; [left; reflexivity|]. right.
      simpl. destruct (terminal (SimulationRun.status r)); simpl;
        eexists; reflexivity.
    + apply after_run_poll in H.
      destruct (terminal (SimulationRun.status r)); [apply H|exact H].
  - intros pre post H. unfold complete_message in H.
    locate H Hreach Hmove Hpost.
    backward Hreach Hmove1. backward Hreach0 Hmove2.
    rewrite <- app_assoc. simpl app.
    do 5 eexists. split; [reflexivity|]. split; [assumption|].
    destruct Hpost as [-> | (pt' & s' & m & E & ->)]; [left; reflexivity|].
    injection E as <- <-. destruct m as [|m]; [left; reflexivity|].
    right. simpl. destruct m; reflexivity.
Qed.

End Run_loop_lines.

(** ** The theorems on the scripted services *)

Ltac by_computation := vm_compute; reflexivity.

(** Without the key, and with an empty key, the run is the three entries
    of the failed check. *)
Lemma missing_api_key_witness :
  run_script (scripted no_key) 3 =
  (Exited 1, [EGetenv "SIMSCALE_API_KEY" None; EPrint error_message; EExit 1]) /\
  run_script (scripted empty_key) 3 =
  (Exited 1, [EGetenv "SIMSCALE_API_KEY" (Some ""); EPrint error_message; EExit 1]) /\
  Forall (fun e => is_exit e = false /\ e <> EPrint error_message) happy_trace.
Proof.
  split; [|split].
  - exact (proj2 (proj2 (missing_api_key_exits (scripted no_key) 0))).
  - exact (proj2 (proj2 (missing_api_key_exits (scripted empty_key) 0))).
  - exact (proj1 (missing_api_key_exits (scripted happy) 60)).
Defined.

(** On [happy] the second status answer of the mesh operation is
    FINISHED: nothing after it is a status request or a sleep of the mesh
    loop. *)
Lemma poll_loops_witness :
  trace (scripted happy) 60 =
  firstn 23 happy_trace
  ++ ECall (GetMeshOperation "p-1" "mo-1")
       (Returns (MeshOperation.Make "mo-1" "FINISHED" "mesh-1"))
  :: skipn 24 happy_trace /\
  Forall (fun e => is_mesh_poll e = false /\ e <> ESleep 30) (skipn 24 happy_trace).
Proof.
  assert (H : trace (scripted happy) 60 =
              firstn 23 happy_trace
              ++ ECall (GetMeshOperation "p-1" "mo-1")
                   (Returns (MeshOperation.Make "mo-1" "FINISHED" "mesh-1"))
              :: skipn 24 happy_trace) by by_computation.
  split; [exact H|].
  destruct (poll_loops_stop_exactly_on_terminal (scripted happy) 60)
    as (_ & _ & _ & Hmesh & _).
  exact (proj1 (Hmesh _ _ _ _ _ H)).
Defined.

(** On [failing] the geometry has no region: the simulation is created
    for the body ["region1"]. *)
Lemma body_name_witness :
  trace (scripted failing) 60 =
  firstn 12 failing_trace
  ++ ECall (CreateSimulation "p-1" (simulation_spec "g-1" "region1"))
       (Returns (Simulation.Make "sim-1"))
  :: skipn 13 failing_trace /\
  exists pre' g b,
    firstn 12 failing_trace =
    pre' ++ [ECall (GetGeometryMappings "p-1" g "region" 1) (Returns b);
             EPrint "Setting up simulation..."] /\
    material_entities (simulation_spec "g-1" "region1") =
    Some (VList [VStr match GeometryMappings.embedded b with
                      | [] => "region1"
                      | body :: _ => GeometryMapping.name body
                      end]).
Proof.
  assert (H : trace (scripted failing) 60 =
              firstn 12 failing_trace
              ++ ECall (CreateSimulation "p-1" (simulation_spec "g-1" "region1"))
                   (Returns (Simulation.Make "sim-1"))
              :: skipn 13 failing_trace) by by_computation.
  split; [exact H|].
  exact (proj1 (body_name_defaults_to_region1 (scripted failing) 60) _ _ _ _ _ H).
Defined.

(** On [happy] the run is created after the update that carries the mesh
    ID. *)
Lemma mesh_attached_witness :
  trace (scripted happy) 60 =
  firstn 27 happy_trace
  ++ ECall (CreateSimulationRun "p-1" "sim-1" run_body)
       (Returns (SimulationRun.Make "run-1" "RUNNING" 0))
  :: skipn 28 happy_trace /\
  exists pre' m mo sim,
    firstn 27 happy_trace =
    pre' ++
    [ECall (GetMeshOperation "p-1" m) (Returns mo);
     ECall (GetSimulation "p-1" "sim-1") (Returns sim);
     ECall (UpdateSimulation "p-1" "sim-1"
              (setattr sim "mesh_id" (VStr (MeshOperation.mesh_id mo))))
       (Returns tt);
     EPrint "Running simulation..."] /\
    terminal (MeshOperation.status mo) = true /\
    getattr (setattr sim "mesh_id" (VStr (MeshOperation.mesh_id mo))) "mesh_id"
    = Some (VStr (MeshOperation.mesh_id mo)).
Proof.
  assert (H : trace (scripted happy) 60 =
              firstn 27 happy_trace
              ++ ECall (CreateSimulationRun "p-1" "sim-1" run_body)
                   (Returns (SimulationRun.Make "run-1" "RUNNING" 0))
              :: skipn 28 happy_trace) by by_computation.
  split; [exact H|].
  exact (proj1 (mesh_attached_before_run (scripted happy) 60) _ _ _ _ _ _ H).
Defined.

(** On [failing] the run reports FAILED at its first status request: the
    script prints the status line and the two final messages and ends. *)
Lemma failed_run_witness :
  trace (scripted failing) 60 =
  firstn 23 failing_trace
  ++ ECall (GetSimulationRun "p-1" "sim-1" "run-1")
       (Returns (SimulationRun.Make "run-1" "FAILED" 1))
  :: skipn 24 failing_trace /\
  SimulationRun.status (SimulationRun.Make "run-1" "FAILED" 1) = "FAILED" /\
  exists fuel',
    run_script (scripted failing) fuel' =
    (Finished,
     firstn 23 failing_trace
     ++ [ECall (GetSimulationRun "p-1" "sim-1" "run-1")
           (Returns (SimulationRun.Make "run-1" "FAILED" 1));
         EPrint "Status: FAILED - Progress: 100%";
         EPrint complete_message;
         EPrint (results_message "p-1")]).
Proof.
  assert (H : trace (scripted failing) 60 =
              firstn 23 failing_trace
              ++ ECall (GetSimulationRun "p-1" "sim-1" "run-1")
                   (Returns (SimulationRun.Make "run-1" "FAILED" 1))
              :: skipn 24 failing_trace) by by_computation.
  split; [exact H|]. split; [reflexivity|].
  destruct (failed_is_handled_like_finished (scripted failing) 60)
    as (_ & _ & _ & _ & Hrun).
  exact (Hrun _ _ _ _ _ _ H (or_introl eq_refl)).
Defined.

(** On [happy] the first status answer of the run is RUNNING at one half:
    the line printed next reads 50%. *)
Lemma status_line_witness :
  trace (scripted happy) 60 =
  firstn 29 happy_trace
  ++ ECall (GetSimulationRun "p-1" "sim-1" "run-1")
       (Returns (SimulationRun.Make "run-1" "RUNNING" 0.5))
  :: EPrint "Status: RUNNING - Progress: 50%"
  :: skipn 31 happy_trace /\
  EPrint "Status: RUNNING - Progress: 50%" =
  EPrint ("Status: " ++ "RUNNING" ++ " - Progress: "
          ++ format_fixed0 (0.5 * 100)%float ++ "%")%string.
Proof.
  assert (H : trace (scripted happy) 60 =
              firstn 29 happy_trace
              ++ ECall (GetSimulationRun "p-1" "sim-1" "run-1")
                   (Returns (SimulationRun.Make "run-1" "RUNNING" 0.5))
              :: EPrint "Status: RUNNING - Progress: 50%"
              :: skipn 31 happy_trace) by by_computation.
  split; [exact H|].
  exact (proj1 (run_status_line_format (scripted happy) 60) _ _ _ _ _ _ _ H).
Defined.

(** On [happy] the sleep after the first status answer of the mesh
    operation lasts 30 seconds. *)
Lemma sleep_intervals_witness :
  trace (scripted happy) 60 =
  firstn 22 happy_trace ++ ESleep 30 :: skipn 23 happy_trace /\
  exists fuel' a rest,
    trace (scripted happy) fuel' =
    firstn 21 happy_trace
    ++ ECall (GetMeshOperation "p-1" "mo-1")
         (Returns (MeshOperation.Make "mo-1" "RUNNING" "mesh-1"))
    :: ESleep 30
    :: ECall (GetMeshOperation "p-1" "mo-1") a
    :: rest.
Proof.
  split; [by_computation|].
  assert (H : trace (scripted happy) 60 =
              firstn 21 happy_trace
              ++ ECall (GetMeshOperation "p-1" "mo-1")
                   (Returns (MeshOperation.Make "mo-1" "RUNNING" "mesh-1"))
              :: skipn 22 happy_trace) by by_computation.
  destruct (fixed_sleep_intervals (scripted happy) 60)
    as (_ & _ & _ & Hmesh & _).
  exact (Hmesh _ _ _ _ _ H eq_refl).
Defined.

(** On [happy] the simulation sent in the update is the fetched one with
    its [mesh_id] set. *)
Lemma only_mesh_id_witness :
  trace (scripted happy) 60 =
  firstn 25 happy_trace
  ++ ECall (UpdateSimulation "p-1" "sim-1"
              (setattr fetched_simulation "mesh_id" (VStr "mesh-1")))
       (Returns tt)
  :: skipn 26 happy_trace /\
  getattr (setattr fetched_simulation "mesh_id" (VStr "mesh-1")) "name"
  = Some (VStr "Harmonic Response") /\
  Forall (fun e => is_update_simulation e = false) (skipn 26 happy_trace).
Proof.
  assert (H : trace (scripted happy) 60 =
              firstn 25 happy_trace
              ++ ECall (UpdateSimulation "p-1" "sim-1"
                          (setattr fetched_simulation "mesh_id" (VStr "mesh-1")))
                   (Returns tt)
              :: skipn 26 happy_trace) by by_computation.
  split; [exact H|]. split; [reflexivity|].
  exact (proj1 (proj2 (only_mesh_id_changes (scripted happy) 60) _ _ _ _ _ _ H)).
Defined.

(** On [failing] the import has failed when it is submitted and the mesh
    operation when it is created: the import status is never requested,
    the mesh status is requested all the same. *)
Lemma first_request_witness :
  trace (scripted failing) 60 =
  firstn 8 failing_trace
  ++ ECall (ImportGeometry "p-1" (geometry_import_request "s-1"))
       (Returns (GeometryImport.Make "FAILED" "gi-1" "g-1"))
  :: skipn 9 failing_trace /\
  terminal "FAILED" = true /\
  Forall (fun e => is_import_poll e = false) (trace (scripted failing) 60) /\
  trace (scripted failing) 60 =
  firstn 15 failing_trace
  ++ ECall (StartMeshOperation "p-1" "mo-1" "sim-1") (Returns tt)
  :: skipn 16 failing_trace /\
  exists pre' op mo,
    firstn 15 failing_trace =
    pre' ++ [ECall (CreateMeshOperation "p-1" op) (Returns mo)] /\
    "mo-1" = MeshOperation.mesh_operation_id mo /\
    exists fuel' a rest,
      trace (scripted failing) fuel' =
      firstn 15 failing_trace
      ++ ECall (StartMeshOperation "p-1" "mo-1" "sim-1") (Returns tt)
      :: EPrint "Meshing..."
      :: ECall (GetMeshOperation "p-1" "mo-1") a
      :: rest.
Proof.
  assert (H : trace (scripted failing) 60 =
              firstn 8 failing_trace
              ++ ECall (ImportGeometry "p-1" (geometry_import_request "s-1"))
                   (Returns (GeometryImport.Make "FAILED" "gi-1" "g-1"))
              :: skipn 9 failing_trace) by by_computation.
  assert (H' : trace (scripted failing) 60 =
               firstn 15 failing_trace
               ++ ECall (StartMeshOperation "p-1" "mo-1" "sim-1") (Returns tt)
               :: skipn 16 failing_trace) by by_computation.
  split; [exact H|]. split; [reflexivity|].
  split; [|split; [exact H'|]].
  - exact (proj2 (proj2 (first_status_request (scripted failing) 60))
             _ _ _ _ _ H eq_refl).
  - exact (proj1 (first_status_request (scripted failing) 60) _ _ _ _ _ _ H').
Defined.

(** On [happy] the last status answer of the run is FINISHED: its status
    line comes first, then the completion message and the results URL. *)
Lemma status_line_before_test_witness :
  trace (scripted happy) 60 =
  firstn 32 happy_trace
  ++ ECall (GetSimulationRun "p-1" "sim-1" "run-1")
       (Returns (SimulationRun.Make "run-1" "FINISHED" 1))
  :: skipn 33 happy_trace /\
  exists fuel',
    run_script (scripted happy) fuel' =
    (Finished,
     firstn 32 happy_trace
     ++ [ECall (GetSimulationRun "p-1" "sim-1" "run-1")
           (Returns (SimulationRun.Make "run-1" "FINISHED" 1));
         EPrint "Status: FINISHED - Progress: 100%";
         EPrint complete_message;
         EPrint (results_message "p-1")]).
Proof.
  assert (H : trace (scripted happy) 60 =
              firstn 32 happy_trace
              ++ ECall (GetSimulationRun "p-1" "sim-1" "run-1")
                   (Returns (SimulationRun.Make "run-1" "FINISHED" 1))
              :: skipn 33 happy_trace) by by_computation.
  split; [exact H|].
  exact (proj2 (proj1 (status_line_before_test (scripted happy) 60) _ _ _ _ _ _ H)).
Defined.

(** On [stuck] the mesh operation stays RUNNING: the script never ends,
    and keeps making moves, one for every two steps at least. *)
Lemma stuck_mesh_polls_forever fuel :
  outcome_of (scripted stuck) fuel = Running /\
  fuel <= 2 * List.length (trace (scripted stuck) fuel).
Proof.
  unfold outcome_of, trace.
  destruct (run_script_walk (scripted stuck) fuel) as (n & Hn & Hfuel & ->).
  assert (Hrun : fst (walk (scripted stuck) n L10 (init (scripted stuck))) = Running).
  { apply (@walk_goes_on (scripted stuck) meshing); [|exact I].
    clear. intros pt [[i m] r] HI.
    destruct pt; simpl in HI; try contradiction; unfold advance; simpl;
      try rewrite HI; simpl;
      try match goal with
          | |- context [negb (terminal ?st)] => destruct (terminal st)
          end; simpl;
      do 3 eexists; (split; [reflexivity|]); simpl; auto. }
  split; [exact Hrun|].
  rewrite (walk_running _ _ _ _ Hrun). exact Hfuel.
Qed.

(** * Further properties of the script *)

(** ** Paths of the transition system *)

Section Paths.

Variable env : environment.


(** The script only stops of itself after its last line. *)
Lemma advance_none pt (s : state env) : advance env pt s = None -> pt = LEnd.
Proof.
  unfold advance. destruct pt; simpl;
    repeat match goal with
           | |- context [if ?b then _ else _] => destruct b
           end; try discriminate; reflexivity.
Qed.

(** A run follows a path; it is still going, or has reached the end of the
    script, or its last entry ended it. *)
Lemma walk_path n : forall pt (s : state env),
  (exists pt' s',
      reaches env pt s (snd (walk env n pt s)) pt' s' /\
      (fst (walk env n pt s) = Running \/
       (fst (walk env n pt s) = Finished /\ pt' = LEnd))) \/
  (exists tr a pt' s',
      snd (walk env n pt s) = tr ++ [a] /\
      reaches env pt s tr pt' s' /\
      advance env pt' s' = Some (a, None) /\
      fst (walk env n pt s) = ended_by a).
Proof.
  induction n as [|n IH]; intros pt s.
  - left. exists pt, s. split; [constructor|left; reflexivity].
  - rewrite walk_S.
    destruct (advance env pt s) as [[a [[pt1 s1]|]]|] eqn:Hadv; simpl.
    + destruct (IH pt1 s1) as [(pt' & s' & Hr & Ho) | (tr & b & pt' & s' & Htr & Hr & Hb & Ho)].
      * left. exists pt', s'. split; [eapply reaches_move; eauto|exact Ho].
      * right. exists (a :: tr), b, pt', s'. rewrite Htr.
        split; [reflexivity|]. split; [eapply reaches_move; eauto|auto].
    + right. exists [], a, pt, s.
      split; [reflexivity|]. split; [constructor|auto].
    + left. exists pt, s. split; [constructor|].
      right. split; [reflexivity|]. eapply advance_none; eassumption.
Qed.

(** A property of the entries so far and the point reached that holds at
    the start and is kept by every move holds along every path. *)
Lemma reaches_history (J : list entry -> point -> Prop) pt0 (s0 : state env) :
  J [] pt0 ->
  (forall tr pt s a pt' s',
      reaches env pt0 s0 tr pt s -> J tr pt ->
      advance env pt s = Some (a, Some (pt', s')) -> J (tr ++ [a]) pt') ->
  forall tr pt s, reaches env pt0 s0 tr pt s -> J tr pt.
Proof.
  intros H0 Hstep tr. induction tr as [|a tr IH] using rev_ind; intros pt s H.
  - inversion H; subst. exact H0.
  - apply reaches_snoc_inv in H. destruct H as (pt1 & s1 & H1 & H2).
    eapply Hstep; eauto.
Qed.


End Paths.

(** ** Exceptions (every call of the script) *)

Section Exceptions.

Variable env : environment.



End Exceptions.

(** ** The order of the calls (lines 18-209) *)

Section Call_order.

Variable env : environment.

(** A call is made at the line the point announces. *)
Lemma advance_call_line pt (s : state env) c a nxt :
  advance env pt s = Some (ECall c a, nxt) -> call_line c = next_call_line pt.
Proof.
  intros Hadv. advance_cases Hadv; try discriminate Hadv;
    repeat match goal with
           | E : negb _ = _ |- _ =>
               apply (f_equal negb) in E; rewrite negb_involutive in E; simpl in E
           end;
    inversion Hadv; subst; simpl;
    repeat match goal with
           | E : terminal _ = _ |- _ => rewrite E
           end; reflexivity.
Qed.

(** Moves go down the script, and past the line of a call that is not a
    status request. *)
Lemma advance_next_call_line pt (s : state env) a pt' s' :
  advance env pt s = Some (a, Some (pt', s')) ->
  next_call_line pt <= next_call_line pt' /\
  (forall c r, a = ECall c r -> is_status_request c = false ->
               next_call_line pt < next_call_line pt').
Proof.
  intros Hadv. advance_cases Hadv; try discriminate Hadv;
    repeat match goal with
           | E : negb _ = _ |- _ =>
               apply (f_equal negb) in E; rewrite negb_involutive in E; simpl in E
           end;
    injection Hadv as <- <- <-; simpl;
    repeat match goal with
           | E : terminal _ = _ |- _ => rewrite E
           end;
    (split;
     [ repeat match goal with
              | |- context [if ?b then _ else _] => destruct b
              end; lia
     | intros c0 r0 E Hst; inversion E; subst; simpl in Hst;
       try discriminate Hst;
       repeat match goal with
              | |- context [if ?b then _ else _] => destruct b
              end; lia ]).
Qed.

Lemma calls_so_far tr pt (s : state env) :
  reaches env L10 (init env) tr pt s ->
  forall c a, In (ECall c a) tr ->
    call_line c < next_call_line pt \/
    (call_line c = next_call_line pt /\ is_status_request c = true).
Proof.
  apply (@reaches_history env
           (fun tr pt => forall c a, In (ECall c a) tr ->
              call_line c < next_call_line pt \/
              (call_line c = next_call_line pt /\ is_status_request c = true))).
  - intros c a [].
  - clear. intros tr pt s b pt' s' _ IH Hadv c a Hin.
    destruct (advance_next_call_line _ _ Hadv) as [Hle Hlt].
    apply in_app_or in Hin. destruct Hin as [Hin | [-> | []]].
    + destruct (IH _ _ Hin) as [H | [H Hst]]; [left; lia|].
      destruct (Nat.eq_dec (next_call_line pt) (next_call_line pt')) as [E | E].
      * right. split; [lia|exact Hst].
      * left. lia.
    + pose proof (advance_call_line _ _ Hadv) as Hline.
      destruct (is_status_request c) eqn:Hst.
      * destruct (Nat.eq_dec (next_call_line pt) (next_call_line pt')) as [E | E].
        -- right. split; [lia|reflexivity].
        -- left. lia.
      * left. specialize (Hlt _ _ eq_refl Hst). lia.
Qed.

(** X2. The calls of a run are made in the order of their source lines:
    of two calls of a trace the earlier one is on an earlier line,
    unless both are the status request of one poll loop.  So no call
    other than a status request is made twice. *)
Theorem calls_in_source_order fuel pre c a mid c' a' post :
  trace env fuel = pre ++ ECall c a :: mid ++ ECall c' a' :: post ->
  call_line c < call_line c' \/
  (call_line c = call_line c' /\ is_status_request c = true).
Proof.
  intros H.
  change (pre ++ ECall c a :: mid ++ ECall c' a' :: post)
    with (pre ++ (ECall c a :: mid) ++ ECall c' a' :: post) in H.
  rewrite app_assoc in H. apply trace_split in H.
  destruct H as (pt & s & nxt & Hreach & Hadv & _).
  rewrite (advance_call_line _ _ Hadv).
  eapply calls_so_far; [exact Hreach|].
  apply in_or_app. right. left. reflexivity.
Qed.

End Call_order.

(** ** From the upload to the mesh operation (lines 28-80 and 169-179) *)

Section Data_flow.

Variable env : environment.

(** X3. The geometry import is only submitted after the fixture file has
    been read and put to the URL of the storage just created, with the
    content type [application/octet-stream]; it is submitted in the
    project just created and its location is the ID of that storage. *)
Theorem upload_precedes_import fuel pre p req a post :
  trace env fuel = pre ++ ECall (ImportGeometry p req) a :: post ->
  exists pre' project storage body,
    pre = pre' ++
          [ECall (CreateProject project_body) (Returns project);
           EPrint "Uploading geometry...";
           ECall CreateStorage (Returns storage);
           ECall (ReadFile "./fixtures/bracket-1.step") (Returns body);
           ECall (RestPUT (Storage.url storage)
                    [("Content-Type", "application/octet-stream")] body)
             (Returns tt)] /\
    p = Project.project_id project /\
    req = geometry_import_request (Storage.storage_id storage) /\
    attribute "location" req =
    Some (VObj "GeometryImportRequestLocation" [VStr (Storage.storage_id storage)] []).
Proof.
  intros H. locate H Hreach Hmove Hpost.
  all: backward Hreach Hmove1; backward Hreach0 Hmove2; backward Hreach Hmove3;
    backward Hreach0 Hmove4; backward Hreach Hmove5.
  all: rewrite <- !app_assoc; simpl app; unit_answers.
  all: do 4 eexists; split; [reflexivity|].
  all: repeat split.
Qed.

(** X4. The geometry the script works on is the one named by the terminal
    status of the import: when the mesh operation is created, the
    mappings were queried, the simulation created and the mesh operation
    defined for the geometry ID of the last status of the import, which
    is the answer to the submission or the last status answer. *)
Theorem geometry_of_terminal_import fuel pre p op a post :
  trace env fuel = pre ++ ECall (CreateMeshOperation p op) a :: post ->
  exists pre' gi b sim,
    pre = pre' ++
          [ECall (GetGeometryMappings p (GeometryImport.geometry_id gi) "region" 1)
             (Returns b);
           EPrint "Setting up simulation...";
           ECall (CreateSimulation p
                    (simulation_spec (GeometryImport.geometry_id gi)
                       (body_name_of (GeometryMappings.embedded b))))
             (Returns sim);
           EPrint "Creating mesh..."] /\
    op = mesh_operation (GeometryImport.geometry_id gi) /\
    attribute "geometry_id" op = Some (VStr (GeometryImport.geometry_id gi)) /\
    terminal (GeometryImport.status gi) = true /\
    ((exists pre'' req,
         pre' = pre'' ++ [ECall (ImportGeometry p req) (Returns gi);
                          EPrint "Importing geometry..."]) \/
     (exists pre'' g,
         pre' = pre'' ++ [ECall (GetGeometryImport p g) (Returns gi)])).
Proof.
  intros H. locate H Hreach Hmove Hpost.
  all: backward Hreach Hmove1; backward Hreach0 Hmove2; backward Hreach Hmove3;
    backward Hreach0 Hmove4.
  all: apply negb_false_iff in Heqb.
  all: rewrite <- !app_assoc; simpl app.
  all: do 4 eexists; split; [reflexivity|].
  all: split; [reflexivity|]; split; [reflexivity|]; split; [assumption|].
  all: backward Hreach Hmove5.
  all: first [ right; do 2 eexists; reflexivity
             | left; backward Hreach0 Hmove6;
               do 2 eexists; rewrite <- app_assoc; reflexivity ].
Qed.

End Data_flow.

(** ** The project and the simulation of the calls (lines 34 and 166) *)

Section Identifiers.

Variable env : environment.

(** A call names the project and the simulation held by the variables
    [project_id] and [simulation_id] at the point where it is made. *)
Lemma advance_call_ids pt (s : state env) c a nxt :
  advance env pt s = Some (ECall c a, nxt) ->
  (forall p, call_project c = Some p -> point_project pt = Some p) /\
  (forall sid, call_simulation c = Some sid -> point_simulation pt = Some sid).
Proof.
  intros Hadv. advance_cases Hadv; try discriminate Hadv;
    inversion Hadv; subst; simpl; split; intros ? E; try discriminate E;
    exact E.
Qed.

(** [project_id] is the ID of the project created at line 29. *)
Lemma project_so_far tr pt (s : state env) :
  reaches env L10 (init env) tr pt s ->
  forall p, point_project pt = Some p ->
    exists pre project post,
      tr = pre ++ ECall (CreateProject project_body) (Returns project) :: post /\
      Project.project_id project = p.
Proof.
  apply (@reaches_history env
           (fun tr pt => forall p, point_project pt = Some p ->
              exists pre project post,
                tr = pre ++ ECall (CreateProject project_body) (Returns project) :: post /\
                Project.project_id project = p)).
  - intros p E. discriminate E.
  - clear. intros tr pt s b pt' s' _ IH Hadv p E.
    advance_cases Hadv; try discriminate Hadv;
      injection Hadv as Hb <- <-; simpl in E; try discriminate E;
      injection E as <-;
      first
        [ destruct (IH _ eq_refl) as (pre & project & post & -> & Hp);
          exists pre, project, (post ++ [b]);
          split; [rewrite <- app_assoc; reflexivity|exact Hp]
        | subst b; exists tr; do 2 eexists; split; reflexivity ].
Qed.

(** [simulation_id] is the ID of the simulation created at line 76. *)
Lemma simulation_so_far tr pt (s : state env) :
  reaches env L10 (init env) tr pt s ->
  forall sid, point_simulation pt = Some sid ->
    exists pre p spec simulation post,
      tr = pre ++ ECall (CreateSimulation p spec) (Returns simulation) :: post /\
      Simulation.simulation_id simulation = sid.
Proof.
  apply (@reaches_history env
           (fun tr pt => forall sid, point_simulation pt = Some sid ->
              exists pre p spec simulation post,
                tr = pre ++ ECall (CreateSimulation p spec) (Returns simulation) :: post /\
                Simulation.simulation_id simulation = sid)).
  - intros p E. discriminate E.
  - clear. intros tr pt s b pt' s' _ IH Hadv sid E.
    advance_cases Hadv; try discriminate Hadv;
      injection Hadv as Hb <- <-; simpl in E; try discriminate E;
      injection E as <-;
      first
        [ destruct (IH _ eq_refl) as (pre0 & p0 & spec0 & sim0 & post0 & -> & Hp);
          exists pre0, p0, spec0, sim0, (post0 ++ [b]);
          split; [rewrite <- app_assoc; reflexivity|exact Hp]
        | subst b; exists tr; do 4 eexists; split; reflexivity ].
Qed.

(** X5. Every call that names a project names the project the script
    created: its ID is the one returned by the one call of
    [create_project] earlier in the trace. *)
Theorem calls_name_created_project fuel pre c a post p :
  trace env fuel = pre ++ ECall c a :: post ->
  call_project c = Some p ->
  exists pre' project mid,
    pre = pre' ++ ECall (CreateProject project_body) (Returns project) :: mid /\
    Project.project_id project = p.
Proof.
  intros H Hp. apply trace_split in H.
  destruct H as (pt & s & nxt & Hreach & Hadv & _).
  destruct (advance_call_ids _ _ Hadv) as [Hproject _].
  exact (project_so_far Hreach (Hproject _ Hp)).
Qed.

(** X6. Every call that names a simulation (starting the mesh operation,
    fetching and updating the simulation, creating, starting and polling
    the run) names the simulation returned by [create_simulation]
    earlier in the trace. *)
Theorem calls_name_created_simulation fuel pre c a post sid :
  trace env fuel = pre ++ ECall c a :: post ->
  call_simulation c = Some sid ->
  exists pre' p spec simulation mid,
    pre = pre' ++ ECall (CreateSimulation p spec) (Returns simulation) :: mid /\
    Simulation.simulation_id simulation = sid.
Proof.
  intros H Hsid. apply trace_split in H.
  destruct H as (pt & s & nxt & Hreach & Hadv & _).
  destruct (advance_call_ids _ _ Hadv) as [_ Hsimulation].
  exact (simulation_so_far Hreach (Hsimulation _ Hsid)).
Qed.

End Identifiers.

(** ** The end of the script (lines 60-216) *)

Section Normal_end.

Variable env : environment.

(** At a point where a job is known to be done, its terminal status is
    among the entries so far. *)
Lemma statuses_so_far tr pt (s : state env) :
  reaches env L10 (init env) tr pt s ->
  (import_done pt = true -> Exists (fun e => terminal_import_status e = true) tr) /\
  (mesh_done pt = true -> Exists (fun e => terminal_mesh_status e = true) tr) /\
  (run_done pt = true -> Exists (fun e => terminal_run_status e = true) tr).
Proof.
  apply (@reaches_history env
           (fun tr pt =>
              (import_done pt = true ->
               Exists (fun e => terminal_import_status e = true) tr) /\
              (mesh_done pt = true ->
               Exists (fun e => terminal_mesh_status e = true) tr) /\
              (run_done pt = true ->
               Exists (fun e => terminal_run_status e = true) tr))).
  - repeat split; intros E; discriminate E.
  - clear. intros tr pt s b pt' s' _ (IH1 & IH2 & IH3) Hadv.
    advance_cases Hadv; try discriminate Hadv;
      repeat match goal with
             | E : negb _ = _ |- _ =>
                 apply (f_equal negb) in E; rewrite negb_involutive in E; simpl in E
             end;
      injection Hadv as <- <- <-; simpl in *;
      repeat split; intros E; try discriminate E;
      apply Exists_app;
      first [ left; first [apply IH1 | apply IH2 | apply IH3];
              first [reflexivity | assumption]
            | right; constructor; exact E ].
Qed.

(** X7. The script only runs to its end through the terminal status of
    each job: a finished run ends with a terminal status answer of the
    simulation run, its status line, the completion message and the
    results URL, and before them the import and the mesh operation
    reported a terminal status.  There is no other way out of the loops. *)
Theorem finished_after_terminal_statuses fuel :
  outcome_of env fuel = Finished ->
  exists pre p sid rid r,
    trace env fuel =
    pre ++ [ECall (GetSimulationRun p sid rid) (Returns r);
            EPrint (status_line r);
            EPrint complete_message;
            EPrint (results_message p)] /\
    terminal (SimulationRun.status r) = true /\
    Exists (fun e => terminal_import_status e = true) pre /\
    Exists (fun e => terminal_mesh_status e = true) pre.
Proof.
  unfold outcome_of, trace.
  destruct (run_script_walk env fuel) as (n & _ & _ & ->).
  intros Hfin.
  destruct (walk_path env n L10 (init env))
    as [(pt' & s' & Hreach & Ho) | (tr & a & pt' & s' & _ & _ & Hadv & Ho)].
  - destruct Ho as [Ho | [_ ->]]; [congruence|].
    remember (snd (walk env n L10 (init env))) as whole eqn:Hwhole. clear Hwhole.
    backward Hreach Hmove1. backward Hreach0 Hmove2.
    backward Hreach Hmove3. backward Hreach0 Hmove4.
    rewrite <- !app_assoc. simpl app.
    destruct (statuses_so_far Hreach) as (Himport & Hmesh & _).
    do 5 eexists. split; [reflexivity|].
    split; [assumption|]. split; [apply Himport|apply Hmesh]; reflexivity.
  - rewrite Hfin in Ho.
    destruct (advance_end _ _ _ Hadv) as [[code ->] | (c & exn & ->)];
      discriminate Ho.
Qed.


End Normal_end.

(** ** Status requests and sleeps (lines 60-64, 189-193, 208-213) *)

Section Alternation.

Variable env : environment.

Lemma count_app test tr1 tr2 :
  count test (tr1 ++ tr2) = count test tr1 + count test tr2.
Proof. unfold count. rewrite filter_app, length_app. reflexivity. Qed.

(** In each loop status requests and sleeps alternate: what a point adds
    to the count tells which of the two comes next. *)
Lemma alternation_so_far tr pt (s : state env) :
  reaches env L10 (init env) tr pt s ->
  count is_import_poll tr + import_slept pt = count (is_sleep_of 5) tr /\
  count is_mesh_poll tr = count (is_sleep_of 30) tr + mesh_requested pt /\
  count is_run_poll tr = count (is_sleep_of 60) tr + run_requested pt.
Proof.
  apply (@reaches_history env
           (fun tr pt =>
              count is_import_poll tr + import_slept pt = count (is_sleep_of 5) tr /\
              count is_mesh_poll tr = count (is_sleep_of 30) tr + mesh_requested pt /\
              count is_run_poll tr = count (is_sleep_of 60) tr + run_requested pt)).
  - repeat split.
  - clear. intros tr pt s b pt' s' _ (IH1 & IH2 & IH3) Hadv.
    rewrite !count_app.
    advance_cases Hadv; try discriminate Hadv;
      injection Hadv as <- <- <-;
      unfold count, mesh_requested, run_requested in *; simpl in *; lia.
Qed.

(** The move that ends a run is no sleep; if it is a status request, it
    is the one that was due. *)
Lemma last_move_counts pt (s : state env) a :
  advance env pt s = Some (a, None) ->
  is_sleep a = false /\
  (is_import_poll a = true -> import_slept pt = 1) /\
  (is_mesh_poll a = true -> mesh_requested pt = 0) /\
  (is_run_poll a = true -> run_requested pt = 0).
Proof.
  intros Hadv. advance_cases Hadv; try discriminate Hadv;
    injection Hadv as <-; simpl; repeat split; intros E;
    try discriminate E; reflexivity.
Qed.

Lemma is_sleep_of_sleep seconds a : is_sleep a = false -> is_sleep_of seconds a = false.
Proof. destruct a; simpl; intros E; try reflexivity; discriminate E. Qed.

(** X9. In every trace the status requests and the sleeps of a loop
    alternate: the import loop has slept as often as it has requested the
    status, or once more; the mesh loop and the run loop have requested the
    status as often as they have slept, or once more.  In a run that
    reached the end of the script the import was polled as often as the
    script slept 5 seconds, and the mesh operation and the run once more
    than it slept 30 and 60 seconds. *)
Theorem polls_and_sleeps_alternate fuel :
  let tr := trace env fuel in
  (count is_import_poll tr <= count (is_sleep_of 5) tr <= count is_import_poll tr + 1) /\
  (count (is_sleep_of 30) tr <= count is_mesh_poll tr <= count (is_sleep_of 30) tr + 1) /\
  (count (is_sleep_of 60) tr <= count is_run_poll tr <= count (is_sleep_of 60) tr + 1) /\
  (outcome_of env fuel = Finished ->
   count is_import_poll tr = count (is_sleep_of 5) tr /\
   count is_mesh_poll tr = count (is_sleep_of 30) tr + 1 /\
   count is_run_poll tr = count (is_sleep_of 60) tr + 1).
Proof.
  unfold outcome_of, trace.
  destruct (run_script_walk env fuel) as (n & _ & _ & ->). cbv zeta.
  destruct (walk_path env n L10 (init env))
    as [(pt' & s' & Hreach & Ho) | (tr & a & pt' & s' & Htr & Hreach & Hadv & Ho)].
  - destruct (alternation_so_far Hreach) as (H1 & H2 & H3).
    assert (Hi : import_slept pt' <= 1) by (destruct pt'; simpl; lia).
    assert (Hm : mesh_requested pt' <= 1)
      by (unfold mesh_requested; destruct (Nat.leb 191 (line pt')); lia).
    assert (Hr : run_requested pt' <= 1)
      by (unfold run_requested; destruct (Nat.leb 210 (line pt')); lia).
    split; [lia|]. split; [lia|]. split; [lia|].
    intros Hfin. destruct Ho as [Ho | [_ ->]]; [congruence|].
    revert H1 H2 H3. unfold mesh_requested, run_requested. simpl. lia.
  - destruct (alternation_so_far Hreach) as (H1 & H2 & H3).
    destruct (last_move_counts _ _ Hadv) as (Hs & Hli & Hlm & Hlr).
    assert (Hi : import_slept pt' <= 1) by (destruct pt'; simpl; lia).
    assert (Hm : mesh_requested pt' <= 1)
      by (unfold mesh_requested; destruct (Nat.leb 191 (line pt')); lia).
    assert (Hr : run_requested pt' <= 1)
      by (unfold run_requested; destruct (Nat.leb 210 (line pt')); lia).
    rewrite Htr, !count_app.
    assert (H5 : count (is_sleep_of 5) [a] = 0)
      by (unfold count; simpl; rewrite (is_sleep_of_sleep _ _ Hs); reflexivity).
    assert (H30 : count (is_sleep_of 30) [a] = 0)
      by (unfold count; simpl; rewrite (is_sleep_of_sleep _ _ Hs); reflexivity).
    assert (H60 : count (is_sleep_of 60) [a] = 0)
      by (unfold count; simpl; rewrite (is_sleep_of_sleep _ _ Hs); reflexivity).
    assert (Hci : count is_import_poll [a] <= import_slept pt').
    { unfold count. simpl. destruct (is_import_poll a); simpl; [|lia].
      rewrite (Hli eq_refl). lia. }
    assert (Hcm : count is_mesh_poll [a] + mesh_requested pt' <= 1).
    { unfold count. simpl. destruct (is_mesh_poll a); simpl; [|lia].
      rewrite (Hlm eq_refl). lia. }
    assert (Hcr : count is_run_poll [a] + run_requested pt' <= 1).
    { unfold count. simpl. destruct (is_run_poll a); simpl; [|lia].
      rewrite (Hlr eq_refl). lia. }
    split; [lia|]. split; [lia|]. split; [lia|].
    intros Hfin. rewrite Hfin in Ho.
    destruct (advance_end _ _ _ Hadv) as [[code ->] | (c & exn & ->)];
      discriminate Ho.
Qed.

End Alternation.

(** ** The percentage (line 210) *)

Lemma round_half_even_exact m e :
  (0 <= e)%Z -> round_half_even m e = (Zpos m * 2 ^ e)%Z.
Proof.
  intros He. unfold round_half_even.
  apply Z.leb_le in He. rewrite He. reflexivity.
Qed.

Lemma round_half_even_nearest m e :
  (e < 0)%Z ->
  (2 * Z.abs (round_half_even m e * 2 ^ (- e) - Zpos m) <= 2 ^ (- e))%Z /\
  ((2 * Z.abs (round_half_even m e * 2 ^ (- e) - Zpos m) = 2 ^ (- e))%Z ->
   Z.even (round_half_even m e) = true).
Proof.
  intros He. unfold round_half_even.
  destruct (0 <=? e)%Z eqn:E; [apply Z.leb_le in E; lia|]. clear E.
  assert (Hd : (0 < 2 ^ (- e))%Z) by (apply Z.pow_pos_nonneg; lia).
  set (d := (2 ^ (- e))%Z) in *.
  pose proof (Z.div_mod (Zpos m) d ltac:(lia)) as Hdm.
  pose proof (Z.mod_pos_bound (Zpos m) d Hd) as Hr.
  set (q := (Zpos m / d)%Z) in *. set (r := (Zpos m mod d)%Z) in *.
  cbv zeta.
  destruct (2 * r <? d)%Z eqn:E1.
  - apply Z.ltb_lt in E1. split; [lia|]. intros H. lia.
  - apply Z.ltb_ge in E1. destruct (d <? 2 * r)%Z eqn:E2.
    + apply Z.ltb_lt in E2. split; [lia|]. intros H. lia.
    + apply Z.ltb_ge in E2. destruct (Z.even q) eqn:E3.
      * split; [lia|]. intros _. exact E3.
      * split; [lia|]. intros _.
        change (q + 1)%Z with (Z.succ q).
        rewrite Z.even_succ, <- Z.negb_even, E3. reflexivity.
Qed.

Lemma round_half_even_nonneg m e : (0 <= round_half_even m e)%Z.
Proof.
  unfold round_half_even. destruct (0 <=? e)%Z eqn:E.
  - apply Z.leb_le in E. pose proof (Z.pow_nonneg 2 e ltac:(lia)). nia.
  - apply Z.leb_gt in E.
    assert (Hd : (0 < 2 ^ (- e))%Z) by (apply Z.pow_pos_nonneg; lia).
    pose proof (Z.div_pos (Zpos m) (2 ^ (- e)) ltac:(lia) Hd) as Hq.
    cbv zeta.
    repeat match goal with |- context [if ?b then _ else _] => destruct b end; lia.
Qed.

(** X10. For a finite value other than zero, with mantissa [m] and
    exponent [e], the digits that [format_fixed0] prints after the sign
    are those of the integer nearest to [m * 2^e], the even one when two
    integers are equally near. *)
Theorem percentage_is_nearest_integer y s m e :
  Prim2SF y = S754_finite s m e ->
  exists n,
    format_fixed0 y = (sign_prefix s ++ decimal n)%string /\
    (0 <= n)%Z /\
    ((0 <= e)%Z -> n = (Zpos m * 2 ^ e)%Z) /\
    ((e < 0)%Z ->
     (2 * Z.abs (n * 2 ^ (- e) - Zpos m) <= 2 ^ (- e))%Z /\
     ((2 * Z.abs (n * 2 ^ (- e) - Zpos m) = 2 ^ (- e))%Z -> Z.even n = true)).
Proof.
  intros H. exists (round_half_even m e).
  split; [unfold format_fixed0; rewrite H; reflexivity|].
  split; [apply round_half_even_nonneg|].
  split; [apply round_half_even_exact|apply round_half_even_nearest].
Qed.

(** ** Runs that show the properties above *)


(** On [happy] the import status is requested twice, with a sleep in
    between: the two calls are on the same line, inside a poll loop. *)
Lemma calls_in_source_order_witness :
  trace (scripted happy) 60 =
  firstn 11 happy_trace
  ++ ECall (GetGeometryImport "p-1" "gi-1")
       (Returns (GeometryImport.Make "RUNNING" "gi-1" "g-1"))
  :: [ESleep 5]
  ++ ECall (GetGeometryImport "p-1" "gi-1")
       (Returns (GeometryImport.Make "FINISHED" "gi-1" "g-1"))
  :: skipn 14 happy_trace /\
  (call_line (GetGeometryImport "p-1" "gi-1")
   < call_line (GetGeometryImport "p-1" "gi-1") \/
   (call_line (GetGeometryImport "p-1" "gi-1")
    = call_line (GetGeometryImport "p-1" "gi-1") /\
    is_status_request (GetGeometryImport "p-1" "gi-1") = true)).
Proof.
  assert (H : trace (scripted happy) 60 =
              firstn 11 happy_trace
              ++ ECall (GetGeometryImport "p-1" "gi-1")
                   (Returns (GeometryImport.Make "RUNNING" "gi-1" "g-1"))
              :: [ESleep 5]
              ++ ECall (GetGeometryImport "p-1" "gi-1")
                   (Returns (GeometryImport.Make "FINISHED" "gi-1" "g-1"))
              :: skipn 14 happy_trace) by by_computation.
  split; [exact H|].
  exact (@calls_in_source_order (scripted happy) 60 _ _ _ _ _ _ _ H).
Defined.

(** On [happy] the import is submitted as the ninth entry, after the
    upload of the fixture to the storage [s-1]. *)
Lemma upload_precedes_import_witness :
  trace (scripted happy) 60 =
  firstn 8 happy_trace
  ++ ECall (ImportGeometry "p-1" (geometry_import_request "s-1"))
       (Returns (GeometryImport.Make "RUNNING" "gi-1" "g-1"))
  :: skipn 9 happy_trace /\
  exists pre' project storage body,
    firstn 8 happy_trace =
    pre' ++
    [ECall (CreateProject project_body) (Returns project);
     EPrint "Uploading geometry...";
     ECall CreateStorage (Returns storage);
     ECall (ReadFile "./fixtures/bracket-1.step") (Returns body);
     ECall (RestPUT (Storage.url storage)
              [("Content-Type", "application/octet-stream")] body)
       (Returns tt)] /\
    "p-1" = Project.project_id project /\
    geometry_import_request "s-1" =
    geometry_import_request (Storage.storage_id storage) /\
    attribute "location" (geometry_import_request "s-1") =
    Some (VObj "GeometryImportRequestLocation" [VStr (Storage.storage_id storage)] []).
Proof.
  assert (H : trace (scripted happy) 60 =
              firstn 8 happy_trace
              ++ ECall (ImportGeometry "p-1" (geometry_import_request "s-1"))
                   (Returns (GeometryImport.Make "RUNNING" "gi-1" "g-1"))
              :: skipn 9 happy_trace) by by_computation.
  split; [exact H|].
  exact (@upload_precedes_import (scripted happy) 60 _ _ _ _ _ H).
Defined.

(** On [happy] the mesh operation is created for the geometry [g-1] of
    the last status answer of the import. *)
Lemma geometry_of_terminal_import_witness :
  trace (scripted happy) 60 =
  firstn 18 happy_trace
  ++ ECall (CreateMeshOperation "p-1" (mesh_operation "g-1"))
       (Returns (MeshOperation.Make "mo-1" "RUNNING" ""))
  :: skipn 19 happy_trace /\
  exists pre' gi b sim,
    firstn 18 happy_trace =
    pre' ++
    [ECall (GetGeometryMappings "p-1" (GeometryImport.geometry_id gi) "region" 1)
       (Returns b);
     EPrint "Setting up simulation...";
     ECall (CreateSimulation "p-1"
              (simulation_spec (GeometryImport.geometry_id gi)
                 (body_name_of (GeometryMappings.embedded b))))
       (Returns sim);
     EPrint "Creating mesh..."] /\
    mesh_operation "g-1" = mesh_operation (GeometryImport.geometry_id gi) /\
    attribute "geometry_id" (mesh_operation "g-1") =
    Some (VStr (GeometryImport.geometry_id gi)) /\
    terminal (GeometryImport.status gi) = true /\
    ((exists pre'' req,
         pre' = pre'' ++ [ECall (ImportGeometry "p-1" req) (Returns gi);
                          EPrint "Importing geometry..."]) \/
     (exists pre'' g,
         pre' = pre'' ++ [ECall (GetGeometryImport "p-1" g) (Returns gi)])).
Proof.
  assert (H : trace (scripted happy) 60 =
              firstn 18 happy_trace
              ++ ECall (CreateMeshOperation "p-1" (mesh_operation "g-1"))
                   (Returns (MeshOperation.Make "mo-1" "RUNNING" ""))
              :: skipn 19 happy_trace) by by_computation.
  split; [exact H|].
  exact (@geometry_of_terminal_import (scripted happy) 60 _ _ _ _ _ H).
Defined.

(** On [happy] the last status request of the run names the project
    [p-1] that [create_project] returned. *)
Lemma calls_name_created_project_witness :
  trace (scripted happy) 60 =
  firstn 32 happy_trace
  ++ ECall (GetSimulationRun "p-1" "sim-1" "run-1")
       (Returns (SimulationRun.Make "run-1" "FINISHED" 1))
  :: skipn 33 happy_trace /\
  call_project (GetSimulationRun "p-1" "sim-1" "run-1") = Some "p-1" /\
  exists pre' project mid,
    firstn 32 happy_trace =
    pre' ++ ECall (CreateProject project_body) (Returns project) :: mid /\
    Project.project_id project = "p-1".
Proof.
  assert (H : trace (scripted happy) 60 =
              firstn 32 happy_trace
              ++ ECall (GetSimulationRun "p-1" "sim-1" "run-1")
                   (Returns (SimulationRun.Make "run-1" "FINISHED" 1))
              :: skipn 33 happy_trace) by by_computation.
  split; [exact H|]. split; [reflexivity|].
  exact (@calls_name_created_project (scripted happy) 60 _ _ _ _ _ H eq_refl).
Defined.

(** On [happy] the run is started in the simulation [sim-1] that
    [create_simulation] returned. *)
Lemma calls_name_created_simulation_witness :
  trace (scripted happy) 60 =
  firstn 28 happy_trace
  ++ ECall (StartSimulationRun "p-1" "sim-1" "run-1") (Returns tt)
  :: skipn 29 happy_trace /\
  call_simulation (StartSimulationRun "p-1" "sim-1" "run-1") = Some "sim-1" /\
  exists pre' p spec simulation mid,
    firstn 28 happy_trace =
    pre' ++ ECall (CreateSimulation p spec) (Returns simulation) :: mid /\
    Simulation.simulation_id simulation = "sim-1".
Proof.
  assert (H : trace (scripted happy) 60 =
              firstn 28 happy_trace
              ++ ECall (StartSimulationRun "p-1" "sim-1" "run-1") (Returns tt)
              :: skipn 29 happy_trace) by by_computation.
  split; [exact H|]. split; [reflexivity|].
  exact (@calls_name_created_simulation (scripted happy) 60 _ _ _ _ _ H eq_refl).
Defined.

(** On [happy] and on [failing] the script runs to its end within 60
    steps. *)
Lemma finished_after_terminal_statuses_witness :
  outcome_of (scripted happy) 60 = Finished /\
  outcome_of (scripted failing) 60 = Finished /\
  (exists pre p sid rid r,
     trace (scripted happy) 60 =
     pre ++ [ECall (GetSimulationRun p sid rid) (Returns r);
             EPrint (status_line r);
             EPrint complete_message;
             EPrint (results_message p)] /\
     terminal (SimulationRun.status r) = true /\
     Exists (fun e => terminal_import_status e = true) pre /\
     Exists (fun e => terminal_mesh_status e = true) pre) /\
  (exists pre p sid rid r,
     trace (scripted failing) 60 =
     pre ++ [ECall (GetSimulationRun p sid rid) (Returns r);
             EPrint (status_line r);
             EPrint complete_message;
             EPrint (results_message p)] /\
     terminal (SimulationRun.status r) = true /\
     Exists (fun e => terminal_import_status e = true) pre /\
     Exists (fun e => terminal_mesh_status e = true) pre).
Proof.
  assert (H : outcome_of (scripted happy) 60 = Finished) by by_computation.
  assert (H' : outcome_of (scripted failing) 60 = Finished) by by_computation.
  split; [exact H|]. split; [exact H'|]. split.
  - exact (@finished_after_terminal_statuses (scripted happy) 60 H).
  - exact (@finished_after_terminal_statuses (scripted failing) 60 H').
Defined.


(** On [happy], which runs to its end, the import is polled as often as
    the script sleeps 5 seconds, the mesh operation and the run once more
    than it sleeps 30 and 60 seconds. *)
Lemma polls_and_sleeps_witness :
  outcome_of (scripted happy) 60 = Finished /\
  count is_import_poll happy_trace = count (is_sleep_of 5) happy_trace /\
  count is_mesh_poll happy_trace = count (is_sleep_of 30) happy_trace + 1 /\
  count is_run_poll happy_trace = count (is_sleep_of 60) happy_trace + 1.
Proof.
  assert (H : outcome_of (scripted happy) 60 = Finished) by by_computation.
  split; [exact H|].
  exact (proj2 (proj2 (proj2 (@polls_and_sleeps_alternate (scripted happy) 60))) H).
Defined.

(** The value 2.5 lies halfway between 2 and 3 and is printed as 2. *)
Lemma percentage_witness :
  Prim2SF 2.5 = S754_finite false 5629499534213120 (-51) /\
  format_fixed0 2.5 = "2" /\
  exists n,
    format_fixed0 2.5 = (sign_prefix false ++ decimal n)%string /\
    (0 <= n)%Z /\
    ((0 <= -51)%Z -> n = (Zpos 5629499534213120 * 2 ^ (-51))%Z) /\
    ((-51 < 0)%Z ->
     (2 * Z.abs (n * 2 ^ (- -51) - Zpos 5629499534213120) <= 2 ^ (- -51))%Z /\
     ((2 * Z.abs (n * 2 ^ (- -51) - Zpos 5629499534213120) = 2 ^ (- -51))%Z ->
      Z.even n = true)).
Proof.
  assert (H : Prim2SF 2.5 = S754_finite false 5629499534213120 (-51))
    by by_computation.
  split; [exact H|]. split; [by_computation|].
  exact (@percentage_is_nearest_integer 2.5 _ _ _ H).
Defined.
